(** * Climate-story backend: the weather resolution pipeline of [src/app.py]

    A shallow embedding of the Flask module [src/app.py] and of the part of
    the Python runtime it relies on ([float], [dict], [datetime], [pytz]),
    followed by the properties proved about it.  The runtime is CPython
    3.11; strings are held as their UTF-8 bytes.

    Layout:
    - Part I    the Python values the handlers manipulate;
    - Part II   the [datetime] library: calendar, arithmetic, ISO-8601;
    - Part III  the module [app.py]: start-up, the three route handlers,
                and the notions the statements use;
    - Part IV   lemmas about the runtime model;
    - Part V    properties of the handlers;
    - Part VI   further properties of the handlers. *)

From Stdlib Require Import ZArith List String Ascii Bool Lia QArith.
Import ListNotations.
Local Open Scope string_scope.
Local Open Scope Z_scope.

(* ================================================================== *)
(** * Part I. Python values                                             *)
(* ================================================================== *)

(** ** Exceptions and results *)

(** The exception classes that can reach the handlers. *)
Inductive exn : Type :=
| ValueError
| TypeError
| OverflowError
| KeyError
| IndexError
| AttributeError (type_name attribute : string)
| UnknownTimeZoneError (zone_name : string)
| GeocoderTimedOut
| GeocoderUnavailable
| ProviderException (message : string).

(** An evaluation either returns a value or raises. *)
Inductive result (A : Type) : Type :=
| Ok (a : A)
| Raise (e : exn).
Arguments Ok {A} a.
Arguments Raise {A} e.

Definition rbind {A B : Type} (r : result A) (k : A -> result B) : result B :=
  match r with
  | Ok a => k a
  | Raise e => Raise e
  end.

Notation "x <- r ;; k" := (rbind r (fun x => k))
  (at level 61, r at next level, right associativity).

(** ** Characters and strings *)

Definition ascii_code (c : ascii) : Z := Z.of_nat (nat_of_ascii c).

Definition is_digit (c : ascii) : bool :=
  (48 <=? ascii_code c) && (ascii_code c <=? 57).

Definition digit_val (c : ascii) : Z := ascii_code c - 48.

Definition digit_char (d : Z) : ascii := ascii_of_nat (Z.to_nat (48 + d)).

(** The blanks [float] skips around a number ([Py_ISSPACE]): TAB, LF, VT,
    FF, CR and the space.  The separators FS..US (28..31), which
    [str.isspace] accepts, are not among them. *)
Definition is_space (c : ascii) : bool :=
  let n := ascii_code c in
  ((9 <=? n) && (n <=? 13)) || (n =? 32).

Definition upper_char (c : ascii) : ascii :=
  let n := ascii_code c in
  if (97 <=? n) && (n <=? 122) then ascii_of_nat (Z.to_nat (n - 32)) else c.

Definition lower_char (c : ascii) : ascii :=
  let n := ascii_code c in
  if (65 <=? n) && (n <=? 90) then ascii_of_nat (Z.to_nat (n + 32)) else c.

(** [str.upper] on ASCII. *)
Fixpoint upper (s : string) : string :=
  match s with
  | EmptyString => EmptyString
  | String c s' => String (upper_char c) (upper s')
  end.

Fixpoint lstrip (s : list ascii) : list ascii :=
  match s with
  | c :: s' => if is_space c then lstrip s' else s
  | [] => []
  end.

(** The text between the leading and the trailing blanks. *)
Definition strip (s : list ascii) : list ascii :=
  rev (lstrip (rev (lstrip s))).

(** ** Floats

    A float is an IEEE 754 binary64 number.  A finite one is represented by
    the rational number it denotes, as a reduced fraction; the sign of zero
    is not kept (the program neither divides by a float nor prints one as
    text).  Literals and [float(str)] round the decimal they read to the
    nearest binary64, ties to even, and overflow to an infinity. *)
Inductive pyfloat : Type :=
| Finite (q : Q)
| Infinity (negative : bool)
| NaN.

(** [2^k <= n / d], for positive [n] and [d]. *)
Definition ge_pow2 (n d k : Z) : bool :=
  if 0 <=? k then d * 2 ^ k <=? n else d <=? n * 2 ^ (- k).

(** The integer part of the binary logarithm of [n / d], for positive [n]
    and [d]. *)
Definition floor_log2 (n d : Z) : Z :=
  let k := Z.log2 n - Z.log2 d in
  if ge_pow2 n d k then k else k - 1.

(** [n / d] rounded to the nearest integer, a tie going to the even one. *)
Definition round_half_even (n d : Z) : Z :=
  let q := n / d in
  let r := n mod d in
  if 2 * r <? d then q
  else if d <? 2 * r then q + 1
  else if Z.even q then q else q + 1.

(** The binary64 nearest to [n / d] ([0 <= n], [0 < d]) with the given sign:
    a significand of 53 bits over the unit [2^e], where [e] is at least
    -1074 (subnormal numbers); a rounded value of [2^1024] or more is an
    infinity. *)
Definition binary64_of_fraction (negative : bool) (n d : Z) : pyfloat :=
  if n =? 0 then Finite 0
  else
    let e := Z.max (-1074) (floor_log2 n d - 52) in
    let m := if 0 <=? e then round_half_even n (d * 2 ^ e)
             else round_half_even (n * 2 ^ (- e)) d in
    if (971 <? e) || ((e =? 971) && (m =? 2 ^ 53)) then Infinity negative
    else
      let m := if negative then - m else m in
      if 0 <=? e then Finite (m * 2 ^ e # 1)
      else Finite (Qred (m # Z.to_pos (2 ^ (- e)))).

(** The literal [m] x 10^-[e]. *)
Definition decimal (m : Z) (e : nat) : pyfloat :=
  binary64_of_fraction (m <? 0) (Z.abs m) (10 ^ Z.of_nat e).

(** The float of mantissa [m] scaled by ten to the [e]. *)
Definition scale10 (m e : Z) : pyfloat :=
  if 0 <=? e then binary64_of_fraction (m <? 0) (Z.abs m * 10 ^ e) 1
  else binary64_of_fraction (m <? 0) (Z.abs m) (10 ^ (- e)).

(** [digitpart ::= digit (["_"] digit)*], after its first digit: the value
    read so far, the number of digits, and what is left. *)
Fixpoint digitpart_rest (acc : Z) (n : Z) (s : list ascii) : Z * Z * list ascii :=
  match s with
  | c :: s' =>
      if is_digit c then digitpart_rest (10 * acc + digit_val c) (n + 1) s'
      else if Ascii.eqb c "_" then
        match s' with
        | d :: s'' =>
            if is_digit d then digitpart_rest (10 * acc + digit_val d) (n + 1) s''
            else (acc, n, s)
        | [] => (acc, n, s)
        end
      else (acc, n, s)
  | [] => (acc, n, s)
  end.

(** An optional [digitpart] continuing the mantissa [acc]. *)
Definition digitpart_opt (acc : Z) (s : list ascii) : Z * Z * list ascii :=
  match s with
  | c :: s' => if is_digit c then digitpart_rest (10 * acc + digit_val c) 1 s' else (acc, 0, s)
  | [] => (acc, 0, s)
  end.

(** [exponent ::= ("e" | "E") ["+" | "-"] digitpart]; [None] when an
    exponent is started and not finished. *)
Definition exponent_opt (s : list ascii) : option (Z * list ascii) :=
  match s with
  | c :: s' =>
      if Ascii.eqb (lower_char c) "e" then
        let '(sign, s1) :=
          match s' with
          | "+"%char :: t => (1, t)
          | "-"%char :: t => (-1, t)
          | _ => (1, s')
          end in
        let '(v, n, rest) := digitpart_opt 0 s1 in
        if n =? 0 then None else Some (sign * v, rest)
      else Some (0, s)
  | [] => Some (0, s)
  end.

(** [floatnumber], unsigned: digits, an optional point and fraction, an
    optional exponent, and nothing after. *)
Definition float_magnitude (s : list ascii) : option (Z * Z) :=
  let '(i, ni, r1) := digitpart_opt 0 s in
  let '(m, nf, r2) :=
    match r1 with
    | "."%char :: t => digitpart_opt i t
    | _ => (i, 0, r1)
    end in
  if ni + nf =? 0 then None
  else match exponent_opt r2 with
       | Some (e, []) => Some (m, e - nf)
       | _ => None
       end.

Definition lower_list (s : list ascii) : list ascii := map lower_char s.

(** The code points of a string, which is held as its UTF-8 bytes:
    [pending] continuation bytes are still to come for the code point
    begun in [acc]. *)
Fixpoint utf8_decode (pending : nat) (acc : Z) (s : list ascii) : list Z :=
  match s with
  | [] => []
  | b :: s' =>
      let n := ascii_code b in
      match pending with
      | O =>
          if n <? 128 then n :: utf8_decode 0 0 s'
          else if n <? 224 then utf8_decode 1 (n - 192) s'
          else if n <? 240 then utf8_decode 2 (n - 224) s'
          else utf8_decode 3 (n - 240) s'
      | S O => (acc * 64 + (n - 128)) :: utf8_decode 0 0 s'
      | S k => utf8_decode k (acc * 64 + (n - 128)) s'
      end
  end.

(** The blanks beyond ASCII ([str.isspace], Unicode 14). *)
Definition unicode_spaces : list Z :=
  [133; 160; 5760; 8192; 8193; 8194; 8195; 8196; 8197; 8198; 8199; 8200;
   8201; 8202; 8232; 8233; 8239; 8287; 12288].

(** The digit zero of every decimal script beyond ASCII (Unicode 14); the
    digits one to nine follow each. *)
Definition unicode_zeros : list Z :=
  [1632; 1776; 1984; 2406; 2534; 2662; 2790; 2918; 3046; 3174; 3302; 3430;
   3558; 3664; 3792; 3872; 4160; 4240; 6112; 6160; 6470; 6608; 6784; 6800;
   6992; 7088; 7232; 7248; 42528; 43216; 43264; 43472; 43504; 43600; 44016;
   65296; 66720; 68912; 69734; 69872; 69942; 70096; 70384; 70736; 70864;
   71248; 71360; 71472; 71904; 72016; 72784; 73040; 73120; 92768; 92864;
   93008; 120782; 120792; 120802; 120812; 120822; 123200; 123632; 125264;
   130032].

(** The decimal value of a code point, if it is a digit of some script. *)
Definition to_decimal (cp : Z) : option Z :=
  match find (fun z => (z <=? cp) && (cp <? z + 10)) unicode_zeros with
  | Some z => Some (cp - z)
  | None => None
  end.

(** What [float] makes of a string before it reads it: a code point below
    127 stays, a blank becomes a space, a digit of any script its ASCII
    digit; at anything else the text ends in a question mark. *)
Fixpoint transform_decimal_and_space (cps : list Z) : list ascii :=
  match cps with
  | [] => []
  | cp :: rest =>
      if cp <? 127 then ascii_of_nat (Z.to_nat cp) :: transform_decimal_and_space rest
      else if existsb (Z.eqb cp) unicode_spaces
      then " "%char :: transform_decimal_and_space rest
      else match to_decimal cp with
           | Some d => digit_char d :: transform_decimal_and_space rest
           | None => ["?"%char]
           end
  end.

(** The builtin [float(str)]: surrounding blanks are dropped, a sign is
    optional, then [inf], [infinity], [nan] (any case) or a [floatnumber],
    rounded to binary64; anything else raises [ValueError]. *)
Definition float_of_str (s : string) : result pyfloat :=
  let text := transform_decimal_and_space (utf8_decode 0 0 (list_ascii_of_string s)) in
  let body := strip text in
  let '(negative, mag) :=
    match body with
    | "-"%char :: t => (true, t)
    | "+"%char :: t => (false, t)
    | _ => (false, body)
    end in
  let word := string_of_list_ascii (lower_list mag) in
  if (word =? "inf")%string || (word =? "infinity")%string then Ok (Infinity negative)
  else if (word =? "nan")%string then Ok NaN
  else match float_magnitude mag with
       | Some (m, e) => Ok (scale10 (if negative then - m else m) e)
       | None => Raise ValueError
       end.

(** ** Dynamic values and dictionaries *)

(** The values a record of the provider's table can hold: [None], a
    string, a float, or an object of another type (a pandas timestamp, say)
    of which only the truth value is observed. *)
Inductive pyvalue : Type :=
| PyNone
| PyStr (s : string)
| PyFloat (x : pyfloat)
| PyObject (truth : bool).

Definition float_truthy (x : pyfloat) : bool :=
  match x with
  | Finite q => negb (Qeq_bool q 0)
  | Infinity _ => true
  | NaN => true
  end.

Definition str_truthy (s : string) : bool :=
  match s with
  | EmptyString => false
  | String _ _ => true
  end.

(** Truth value testing, as [if x:] does it. *)
Definition truthy (v : pyvalue) : bool :=
  match v with
  | PyNone => false
  | PyStr s => str_truthy s
  | PyFloat x => float_truthy x
  | PyObject b => b
  end.

(** [Optional[str]] arguments such as [request.args.get('city')]. *)
Definition opt_truthy (o : option string) : bool :=
  match o with
  | Some s => str_truthy s
  | None => false
  end.

(** A [dict] with string keys, in insertion order. *)
Definition dict (V : Type) : Type := list (string * V).

(** [d.get(k)]: the value under [k], if any. *)
Fixpoint dict_get {V : Type} (k : string) (d : dict V) : option V :=
  match d with
  | [] => None
  | (k', v) :: d' => if (k' =? k)%string then Some v else dict_get k d'
  end.

(** [d[k] = v]: overwrite in place, or append a new key. *)
Fixpoint dict_set {V : Type} (k : string) (v : V) (d : dict V) : dict V :=
  match d with
  | [] => [(k, v)]
  | (k', v') :: d' => if (k' =? k)%string then (k', v) :: d' else (k', v') :: dict_set k v d'
  end.

(** [d[k]]: raises [KeyError] on a missing key. *)
Definition dict_getitem {V : Type} (k : string) (d : dict V) : result V :=
  match dict_get k d with
  | Some v => Ok v
  | None => Raise KeyError
  end.

(** [list(d.keys())]. *)
Definition dict_keys {V : Type} (d : dict V) : list string := map fst d.

(* ================================================================== *)
(** * Part II. The [datetime] library                                   *)
(* ================================================================== *)

(** ** The proleptic Gregorian calendar

    The day arithmetic of CPython's [datetime]: ordinal 1 is 0001-01-01. *)

Definition MINYEAR : Z := 1.
Definition MAXYEAR : Z := 9999.
(** [date.max.toordinal()]. *)
Definition MAXORDINAL : Z := 3652059.

Definition is_leap (y : Z) : bool :=
  (y mod 4 =? 0) && (negb (y mod 100 =? 0) || (y mod 400 =? 0)).

(** Number of days before January 1st of year [y]. *)
Definition days_before_year (y : Z) : Z :=
  let p := y - 1 in p * 365 + p / 4 - p / 100 + p / 400.

Definition DAYS_IN_MONTH (m : Z) : Z :=
  match m with
  | 1 => 31 | 2 => 28 | 3 => 31 | 4 => 30 | 5 => 31 | 6 => 30
  | 7 => 31 | 8 => 31 | 9 => 30 | 10 => 31 | 11 => 30 | 12 => 31
  | _ => -1
  end.

Definition DAYS_BEFORE_MONTH (m : Z) : Z :=
  match m with
  | 1 => 0 | 2 => 31 | 3 => 59 | 4 => 90 | 5 => 120 | 6 => 151
  | 7 => 181 | 8 => 212 | 9 => 243 | 10 => 273 | 11 => 304 | 12 => 334
  | _ => -1
  end.

Definition days_in_month (y m : Z) : Z :=
  if (m =? 2) && is_leap y then 29 else DAYS_IN_MONTH m.

Definition days_before_month (y m : Z) : Z :=
  DAYS_BEFORE_MONTH m + (if (2 <? m) && is_leap y then 1 else 0).

(** Ordinal of the date [y]-[m]-[d]. *)
Definition ymd2ord (y m d : Z) : Z :=
  days_before_year y + days_before_month y m + d.

Definition DI400Y : Z := 146097.
Definition DI100Y : Z := 36524.
Definition DI4Y : Z := 1461.

(** Month and day of the zero-based day [n] of a year: an estimate of the
    month that is at most one too large, then the correction. *)
Definition month_day (leapyear : bool) (n : Z) : Z * Z :=
  let m := Z.shiftr (n + 50) 5 in
  let preceding := DAYS_BEFORE_MONTH m + (if (2 <? m) && leapyear then 1 else 0) in
  if n <? preceding
  then let m' := m - 1 in
       let preceding' :=
         preceding - (DAYS_IN_MONTH m' + (if (m' =? 2) && leapyear then 1 else 0)) in
       (m', n - preceding' + 1)
  else (m, n - preceding + 1).

(** The date of ordinal [n]: cycles of 400, 100, 4 and 1 years. *)
Definition ord2ymd (n : Z) : Z * Z * Z :=
  let n := n - 1 in
  let n400 := n / DI400Y in let n := n mod DI400Y in
  let y := n400 * 400 + 1 in
  let n100 := n / DI100Y in let n := n mod DI100Y in
  let n4 := n / DI4Y in let n := n mod DI4Y in
  let n1 := n / 365 in let n := n mod 365 in
  let y := y + n100 * 100 + n4 * 4 + n1 in
  if (n1 =? 4) || (n100 =? 4) then (y - 1, 12, 31)
  else
    let leapyear := (n1 =? 3) && (negb (n4 =? 24) || (n100 =? 3)) in
    let '(m, d) := month_day leapyear n in
    (y, m, d).

(** ** [timedelta] *)

Definition US_PER_SECOND : Z := 1000000.
Definition US_PER_DAY : Z := 86400000000.

(** A duration, normalised as Python keeps it:
    [0 <= seconds < 86400] and [0 <= microseconds < 1000000]. *)
Record timedelta : Type := mk_timedelta {
  days : Z;
  seconds : Z;
  microseconds : Z
}.

Definition timedelta_of_us (us : Z) : timedelta :=
  {| days := us / US_PER_DAY;
     seconds := us mod US_PER_DAY / US_PER_SECOND;
     microseconds := us mod US_PER_SECOND |}.

Definition total_us (td : timedelta) : Z :=
  (days td * 86400 + seconds td) * US_PER_SECOND + microseconds td.

(** [timedelta(days=.., hours=.., minutes=.., seconds=.., microseconds=..)]. *)
Definition timedelta_new (d h mi s us : Z) : timedelta :=
  timedelta_of_us ((((d * 24 + h) * 60 + mi) * 60 + s) * US_PER_SECOND + us).

(** ** [datetime] *)

(** A datetime; [tzinfo] is [None] for a naive value and otherwise the UTC
    offset of the attached zone, in microseconds (every zone object that
    occurs here has a fixed offset: [timezone.utc], [timezone(offset)], and
    the per-period instances pytz attaches). *)
Record datetime : Type := mk_datetime {
  year : Z;
  month : Z;
  day : Z;
  hour : Z;
  minute : Z;
  second : Z;
  microsecond : Z;
  tzinfo : option Z
}.

Definition check_date_fields (y m d : Z) : bool :=
  (MINYEAR <=? y) && (y <=? MAXYEAR) && (1 <=? m) && (m <=? 12)
  && (1 <=? d) && (d <=? days_in_month y m).

Definition check_time_fields (h mi s us : Z) : bool :=
  (0 <=? h) && (h <=? 23) && (0 <=? mi) && (mi <=? 59)
  && (0 <=? s) && (s <=? 59) && (0 <=? us) && (us <=? 999999).

(** An offset is strictly between minus and plus 24 hours. *)
Definition check_utc_offset (off : Z) : bool :=
  (- US_PER_DAY <? off) && (off <? US_PER_DAY).

(** The fields of a datetime object are always within these ranges: the
    constructor refuses anything else. *)
Definition valid_datetime (d : datetime) : bool :=
  check_date_fields (year d) (month d) (day d)
  && check_time_fields (hour d) (minute d) (second d) (microsecond d).

(** The constructor [datetime(y, m, d, h, mi, s, us, tzinfo)]. *)
Definition datetime_new (y m d h mi s us : Z) (tz : option Z) : result datetime :=
  if check_date_fields y m d && check_time_fields h mi s us
  then Ok (mk_datetime y m d h mi s us tz)
  else Raise ValueError.

Definition toordinal (d : datetime) : Z := ymd2ord (year d) (month d) (day d).

(** Microseconds from the start of ordinal 0 to the wall time of [d],
    the zone set aside. *)
Definition naive_us (d : datetime) : Z :=
  ((toordinal d * 24 + hour d) * 60 + minute d) * 60 * US_PER_SECOND
  + second d * US_PER_SECOND + microsecond d.

(** The instant [d] denotes, in microseconds of UTC; a naive value is read
    as UTC. *)
Definition instant (d : datetime) : Z :=
  match tzinfo d with
  | Some off => naive_us d - off
  | None => naive_us d
  end.

(** [d.replace(minute=.., second=.., microsecond=..)]. *)
Definition replace_time (d : datetime) (mi s us : Z) : datetime :=
  mk_datetime (year d) (month d) (day d) (hour d) mi s us (tzinfo d).

(** [d.replace(tzinfo=..)]: the wall time is kept as it is. *)
Definition replace_tzinfo (d : datetime) (tz : option Z) : datetime :=
  mk_datetime (year d) (month d) (day d) (hour d) (minute d) (second d)
              (microsecond d) tz.

(** [d + td]: through the ordinal, [OverflowError] outside years 1..9999. *)
Definition datetime_add (d : datetime) (td : timedelta) : result datetime :=
  let delta := timedelta_of_us (naive_us d + total_us td) in
  let h := seconds delta / 3600 in
  let rem := seconds delta mod 3600 in
  if (0 <? days delta) && (days delta <=? MAXORDINAL) then
    let '(y, m, dd) := ord2ymd (days delta) in
    Ok (mk_datetime y m dd h (rem / 60) (rem mod 60) (microseconds delta) (tzinfo d))
  else Raise OverflowError.

(** [a - b] for two datetimes: [TypeError] when only one is naive. *)
Definition datetime_diff (a b : datetime) : result timedelta :=
  match tzinfo a, tzinfo b with
  | None, None => Ok (timedelta_of_us (naive_us a - naive_us b))
  | Some oa, Some ob => Ok (timedelta_of_us (naive_us a - naive_us b + ob - oa))
  | _, _ => Raise TypeError
  end.

(** ** ISO-8601 output *)

(** [w] decimal digits of [n], most significant first: what [%0wd] prints
    for [0 <= n < 10^w]. *)
Fixpoint fixed_digits (w : nat) (n : Z) : string :=
  match w with
  | O => EmptyString
  | S w' => String (digit_char (n / 10 ^ Z.of_nat w' mod 10)) (fixed_digits w' n)
  end.

(** [HH:MM:SS], and [.ffffff] when the microseconds are not zero. *)
Definition format_time (h mi s us : Z) : string :=
  (fixed_digits 2 h ++ ":" ++ fixed_digits 2 mi ++ ":" ++ fixed_digits 2 s
   ++ (if (us =? 0)%Z then "" else "." ++ fixed_digits 6 us))%string.

(** [HH:MM] of the offset's magnitude [a], with [:SS] and [.ffffff] only
    when they are not zero. *)
Definition format_offset_fields (a : Z) : string :=
  let hh := a / (3600 * US_PER_SECOND) in
  let mm := a mod (3600 * US_PER_SECOND) / (60 * US_PER_SECOND) in
  let ss := a mod (60 * US_PER_SECOND) / US_PER_SECOND in
  let us := a mod US_PER_SECOND in
  (fixed_digits 2 hh ++ ":" ++ fixed_digits 2 mm
   ++ (if ((ss =? 0) && (us =? 0))%Z then ""
       else ":" ++ fixed_digits 2 ss
            ++ (if (us =? 0)%Z then "" else "." ++ fixed_digits 6 us)))%string.

Definition offset_sign (off : Z) : ascii :=
  if off <? 0 then "-"%char else "+"%char.

(** The offset as [isoformat] appends it: sign, then the fields. *)
Definition format_offset (off : Z) : string :=
  String (offset_sign off) (format_offset_fields (Z.abs off)).

(** [YYYY-MM-DDTHH:MM:SS[.ffffff]]: the date and the wall time of [d]. *)
Definition wall_text (d : datetime) : string :=
  (fixed_digits 4 (year d) ++ "-" ++ fixed_digits 2 (month d) ++ "-"
   ++ fixed_digits 2 (day d) ++ "T"
   ++ format_time (hour d) (minute d) (second d) (microsecond d))%string.

(** [d.isoformat()]; asking the zone for an offset of 24 hours or more
    raises [ValueError]. *)
Definition isoformat (d : datetime) : result string :=
  match tzinfo d with
  | None => Ok (wall_text d)
  | Some off =>
      if check_utc_offset off then Ok (wall_text d ++ format_offset off)%string
      else Raise ValueError
  end.

(** ** ISO-8601 input

    [datetime.fromisoformat] as CPython 3.11 implements it, in C, over the
    UTF-8 bytes of the string, which a NUL byte terminates.  It reads what
    [isoformat] prints and a good deal more: dates without dashes and ISO
    week dates, any one character between date and time, times without
    colons, any number of fraction digits after a point or a comma, and the
    zone as [Z] or as an offset.  A pointer into the buffer is modelled by
    the text from that place on. *)

(** The terminator of a C string. *)
Definition NUL : ascii := Ascii.zero.

(** [*p]: the byte under the pointer; past the last one, the terminator. *)
Definition peek (p : string) : ascii :=
  match p with
  | String c _ => c
  | EmptyString => NUL
  end.

(** [p + n]. *)
Fixpoint skip (n : nat) (p : string) : string :=
  match n, p with
  | S n', String _ p' => skip n' p'
  | _, _ => p
  end.

(** [parse_digits(ptr, var, w)]: exactly [w] decimal digits. *)
Fixpoint parse_digits (w : nat) (acc : Z) (s : string) : option (Z * string) :=
  match w with
  | O => Some (acc, s)
  | S w' =>
      match s with
      | String c s' =>
          if is_digit c then parse_digits w' (10 * acc + digit_val c) s' else None
      | EmptyString => None
      end
  end.

(** The pointer moved past the digits it stands on. *)
Fixpoint skip_digits (p : string) : string :=
  match p with
  | String c p' => if is_digit c then skip_digits p' else p
  | EmptyString => p
  end.

(** The number of digits the pointer stands on. *)
Fixpoint count_digits (p : string) : Z :=
  match p with
  | String c p' => if is_digit c then 1 + count_digits p' else 0
  | EmptyString => 0
  end.

(** Where the date ends, for a string of [len >= 7] bytes: 7, 8 or 10 bytes
    in, by the dashes and the week mark [W]; -1 for a week date cut short. *)
Definition find_isoformat_datetime_separator (dtstr : string) (len : Z) : Z :=
  if len =? 7 then 7
  else if Ascii.eqb (peek (skip 4 dtstr)) "-" then
    if Ascii.eqb (peek (skip 5 dtstr)) "W" then
      if len <? 8 then -1
      else if (8 <? len) && Ascii.eqb (peek (skip 8 dtstr)) "-" then
        if len =? 9 then -1
        else if (10 <? len) && is_digit (peek (skip 10 dtstr)) then 8
        else 10
      else 8
    else 10
  else if Ascii.eqb (peek (skip 4 dtstr)) "W" then
    let idx := 7 + count_digits (skip 7 dtstr) in
    if idx <? 9 then idx
    else if Z.even idx then 7 else 8
  else 8.

(** Day of the week, Monday being 0. *)
Definition weekday (y m d : Z) : Z := (ymd2ord y m d + 6) mod 7.

(** Ordinal of the Monday that starts ISO week 1 of year [y]: the week
    that holds the year's first Thursday. *)
Definition iso_week1_monday (y : Z) : Z :=
  let first_day := ymd2ord y 1 1 in
  let first_weekday := (first_day + 6) mod 7 in
  let week1_monday := first_day - first_weekday in
  if 3 <? first_weekday then week1_monday + 7 else week1_monday.

(** The calendar date of an ISO year, week and day.  Week 53 exists in a
    year that starts on a Thursday, or is leap and starts on a Wednesday.
    The date may fall outside the years 1..9999 (always so for ISO year 0):
    the constructor refuses it later. *)
Definition iso_to_ymd (iso_year iso_week iso_day : Z) : option (Z * Z * Z) :=
  let out_of_range :=
    if (iso_week <=? 0) || (53 <=? iso_week) then
      negb ((iso_week =? 53)
            && (let first_weekday := weekday iso_year 1 1 in
                (first_weekday =? 3) || ((first_weekday =? 2) && is_leap iso_year)))
    else false in
  if out_of_range then None
  else if (iso_day <=? 0) || (8 <=? iso_day) then None
  else
    let day_1 := iso_week1_monday iso_year in
    let day_offset := (iso_week - 1) * 7 + iso_day - 1 in
    Some (ord2ymd (day_1 + day_offset)).

(** The date at the head of the buffer, [len] being the place of the
    separator (compared as an unsigned number, so that -1 is large):
    [YYYY-MM-DD], [YYYYMMDD], [YYYY-Www[-D]] or [YYYYWww[D]]. *)
Definition parse_isoformat_date (dtstr : string) (len : Z) : option (Z * Z * Z) :=
  match parse_digits 4 0 dtstr with
  | None => None
  | Some (year, p) =>
      let uses_separator := Ascii.eqb (peek p) "-" in
      let p := if uses_separator then skip 1 p else p in
      if Ascii.eqb (peek p) "W" then
        match parse_digits 2 0 (skip 1 p) with
        | None => None
        | Some (iso_week, p) =>
            let consumed := if uses_separator then 8 else 7 in
            if (len <? 0) || (consumed <? len) then
              if uses_separator && negb (Ascii.eqb (peek p) "-") then None
              else
                match parse_digits 1 0 (if uses_separator then skip 1 p else p) with
                | None => None
                | Some (iso_day, _) => iso_to_ymd year iso_week iso_day
                end
            else iso_to_ymd year iso_week 1
        end
      else
        match parse_digits 2 0 p with
        | None => None
        | Some (month, p) =>
            if uses_separator && negb (Ascii.eqb (peek p) "-") then None
            else
              match parse_digits 2 0 (if uses_separator then skip 1 p else p) with
              | None => None
              | Some (day, _) => Some (year, month, day)
              end
        end
  end.

(** What one run of the C function [parse_hh_mm_ss_ff] leaves: hour,
    minute, second, microsecond, and whether it stopped on a byte other
    than NUL (return code 1 rather than 0). *)
Definition time_fields : Type := (Z * Z * Z * Z * bool)%type.

Definition set_component (i : nat) (v : Z) (vals : Z * Z * Z) : Z * Z * Z :=
  let '(h, m, s) := vals in
  match i with
  | 0%nat => (v, m, s)
  | 1%nat => (h, v, s)
  | _ => (h, m, v)
  end.

(** The fraction: up to six digits of the [len_remains] bytes left before
    the end are read and scaled to microseconds, further digits skipped. *)
Definition parse_fraction (vals : Z * Z * Z) (p : string) (len_remains : Z)
  : option time_fields :=
  let to_parse := if 6 <=? len_remains then 6%nat else Z.to_nat len_remains in
  match parse_digits to_parse 0 p with
  | None => None
  | Some (us, p) =>
      let '(h, m, s) := vals in
      Some (h, m, s, us * 10 ^ Z.of_nat (6 - to_parse),
            negb (Ascii.eqb (peek (skip_digits p)) NUL))
  end.

(** The loop over hour, minute and second: component [i] of the [todo]
    still to read, [len] bytes before the end.  Whether colons separate the
    components is fixed by the byte after the hour.  Two digits are read,
    then the next byte [c]: with the end reached the run is over; a colon
    (when colons are in use) leads to the next component and, after the
    seconds, to the fraction; a point or a comma leads to the fraction;
    without colons the next component starts at [c] itself. *)
Fixpoint parse_components (todo i : nat) (has_separator : bool) (vals : Z * Z * Z)
    (p : string) (len : Z) : option time_fields :=
  match todo with
  | O => parse_fraction vals p len
  | S todo' =>
      match parse_digits 2 0 p with
      | None => None
      | Some (v, p) =>
          let vals := set_component i v vals in
          let c := peek p in
          let has_separator := if Nat.eqb i 0 then Ascii.eqb c ":" else has_separator in
          if len - 3 <=? 0 then
            let '(h, m, s) := vals in Some (h, m, s, 0, negb (Ascii.eqb c NUL))
          else if has_separator && Ascii.eqb c ":" then
            parse_components todo' (S i) has_separator vals (skip 1 p) (len - 3)
          else if Ascii.eqb c "." || Ascii.eqb c "," then
            parse_fraction vals (skip 1 p) (len - 3)
          else if negb has_separator then
            parse_components todo' (S i) has_separator vals p (len - 2)
          else None
      end
  end.

(** [HH[[:]MM[[:]SS[(.|,)f+]]]] in the [len] bytes under the pointer. *)
Definition parse_hh_mm_ss_ff (tstr : string) (len : Z) : option time_fields :=
  parse_components 3 0 true (0, 0, 0) tstr len.

Definition is_tz_char (c : ascii) : bool :=
  Ascii.eqb c "Z" || Ascii.eqb c "+" || Ascii.eqb c "-".

(** The number of bytes before the first [Z], [+] or [-]. *)
Fixpoint tz_position (p : string) : nat :=
  match p with
  | String c p' => if is_tz_char c then 0%nat else S (tz_position p')
  | EmptyString => 0%nat
  end.

(** The time part: the four fields and, when a zone is given, its offset
    in whole seconds and the microseconds beside.  What stands between the
    time and the zone mark is looked at only when there is no zone. *)
Definition parse_isoformat_time (tstr : string)
  : option (Z * Z * Z * Z * option (Z * Z)) :=
  let tzinfo_pos := tz_position tstr in
  match parse_hh_mm_ss_ff tstr (Z.of_nat tzinfo_pos) with
  | None => None
  | Some (hh, mm, ss, ff, more) =>
      match skip tzinfo_pos tstr with
      | EmptyString => if more then None else Some (hh, mm, ss, ff, None)
      | String c tzstr =>
          if Ascii.eqb c "Z" then
            if Ascii.eqb (peek tzstr) NUL then Some (hh, mm, ss, ff, Some (0, 0))
            else None
          else
            let tzsign := if Ascii.eqb c "-" then -1 else 1 in
            match parse_hh_mm_ss_ff tzstr (Z.of_nat (String.length tzstr)) with
            | None => None
            | Some (h, m, s, f, more) =>
                if more then None
                else Some (hh, mm, ss, ff,
                           Some (tzsign * (h * 3600 + m * 60 + s), tzsign * f))
            end
      end
  end.

(** [timezone.utc]. *)
Definition timezone_utc : option Z := Some 0.

(** The zone object for what was read: [timezone.utc] whenever the whole
    seconds are zero, else [timezone(offset)], which wants the offset
    strictly between minus and plus 24 hours. *)
Definition tzinfo_from_isoformat_results (tz : option (Z * Z)) : result (option Z) :=
  match tz with
  | None => Ok None
  | Some (tzoffset, tz_useconds) =>
      if tzoffset =? 0 then Ok timezone_utc
      else
        let off := tzoffset * US_PER_SECOND + tz_useconds in
        if check_utc_offset off then Ok (Some off) else Raise ValueError
  end.

(** The number of bytes of the UTF-8 character that starts with [c]. *)
Definition utf8_width (c : ascii) : nat :=
  let n := ascii_code c in
  if n <? 128 then 1%nat
  else if (224 <=? n) && (n <? 240) then 3%nat
  else if 240 <=? n then 4%nat
  else 2%nat.

(** [datetime.fromisoformat(date_string)].  A string of fewer than seven
    bytes holds no date. *)
Definition fromisoformat (date_string : string) : result datetime :=
  let len := Z.of_nat (String.length date_string) in
  if len <? 7 then Raise ValueError
  else
    let separator_location := find_isoformat_datetime_separator date_string len in
    match parse_isoformat_date date_string separator_location with
    | None => Raise ValueError
    | Some (y, m, d) =>
        if separator_location <? len then
          let p := skip (Z.to_nat separator_location) date_string in
          match parse_isoformat_time (skip (utf8_width (peek p)) p) with
          | None => Raise ValueError
          | Some (hh, mm, ss, ff, tz) =>
              tzinfo <- tzinfo_from_isoformat_results tz ;;
              datetime_new y m d hh mm ss ff tzinfo
          end
        else datetime_new y m d 0 0 0 0 None
    end.

(** [fromisoformat] applied to a dynamic value: only a [str] is accepted. *)
Definition fromisoformat_value (v : pyvalue) : result datetime :=
  match v with
  | PyStr s => fromisoformat s
  | _ => Raise TypeError
  end.

(** ** Time zones *)

(** A zone of the pytz database: the offset from UTC, in seconds, that is
    in force at a given UTC wall time (in microseconds, as [naive_us]). *)
Definition zone : Type := Z -> Z.

(** [pytz.UTC]. *)
Definition pytz_UTC : zone := fun _ => 0.

(** [tz.fromutc(utc)]: the period in force at [utc] is looked up, its
    offset added, and its fixed-offset instance attached. *)
Definition fromutc (tz : zone) (utc : datetime) : result datetime :=
  let off := tz (naive_us utc) * US_PER_SECOND in
  local <- datetime_add utc (timedelta_of_us off) ;;
  Ok (replace_tzinfo local (Some off)).

(** [self.astimezone(tz)] for a zone object other than [self]'s own.  A
    naive [self] would be read in the zone of the machine, which is not
    modelled: the handler attaches UTC first and never gets there, and the
    model raises instead. *)
Definition astimezone (self : datetime) (tz : zone) : result datetime :=
  match tzinfo self with
  | None => Raise ValueError
  | Some myoffset =>
      utc <- datetime_add self (timedelta_of_us (- myoffset)) ;;
      fromutc tz utc
  end.

(** [pytz.timezone(name)]: [UTC] in any case is built in, every other name
    is looked up in the database [db]. *)
Definition pytz_timezone (db : string -> option zone) (name : string) : result zone :=
  if (upper name =? "UTC")%string then Ok pytz_UTC
  else match db name with
       | Some z => Ok z
       | None => Raise (UnknownTimeZoneError name)
       end.

(* ================================================================== *)
(** * Part III. The module [app.py]                                      *)
(* ================================================================== *)

(** ** Module start-up (lines 20-21) *)

(** [os.environ]. *)
Definition environ : Type := dict string.

(** The objects the two start-up lines touch: the module [os], its function
    [os.getenv], and any other object, of which nothing is observed. *)
Inductive pyobject : Type :=
| Os_module
| Os_getenv
| Opaque.

(** The attributes of a plain Python function: what [dir] lists for one in
    CPython 3.7 to 3.12, the function's own slots and those [object] gives
    it.  [os.getenv] has no attributes of its own besides. *)
Definition function_attributes : list string :=
  ["__annotations__"; "__builtins__"; "__call__"; "__class__"; "__closure__";
   "__code__"; "__defaults__"; "__delattr__"; "__dict__"; "__dir__";
   "__doc__"; "__eq__"; "__format__"; "__ge__"; "__get__";
   "__getattribute__"; "__getstate__"; "__globals__"; "__gt__"; "__hash__";
   "__init__"; "__init_subclass__"; "__kwdefaults__"; "__le__"; "__lt__";
   "__module__"; "__name__"; "__ne__"; "__new__"; "__qualname__";
   "__reduce__"; "__reduce_ex__"; "__repr__"; "__setattr__"; "__sizeof__";
   "__str__"; "__subclasshook__"; "__type_params__"].

(** Attribute lookup [o.name].  Of the members of [os] only [getenv] is
    told apart.  A function answers to [__call__] with itself and to the
    attributes it carries; any other name raises [AttributeError]. *)
Definition getattr (o : pyobject) (name : string) : result pyobject :=
  match o with
  | Os_module => if (name =? "getenv")%string then Ok Os_getenv else Ok Opaque
  | Os_getenv =>
      if (name =? "__call__")%string then Ok Os_getenv
      else if existsb (String.eqb name) function_attributes then Ok Opaque
      else Raise (AttributeError "function" name)
  | Opaque => Ok Opaque
  end.

(** The call [f(key)] with one string argument: [os.getenv(key)] reads the
    environment and gives [None] for an unset variable. *)
Definition call_with_key (f : pyobject) (env : environ) (key : string)
  : result (option string) :=
  match f with
  | Os_getenv => Ok (dict_get key env)
  | _ => Raise TypeError
  end.

(** The module-level names the handlers read. *)
Record globals : Type := mk_globals {
  username : option string;
  password : option string
}.

(** The expression [os.getenv.getenv(key)]: the attribute [getenv] of the
    module, then the attribute [getenv] of that function, then the call. *)
Definition os_getenv_getenv (env : environ) (key : string) : result (option string) :=
  f <- getattr Os_module "getenv" ;;
  g <- getattr f "getenv" ;;
  call_with_key g env key.

(** Lines 20-21, run once when the module is imported. *)
Definition module_init (env : environ) : result globals :=
  u <- os_getenv_getenv env "METEOMATICS_USERNAME" ;;
  p <- os_getenv_getenv env "METEOMATICS_PASSWORD" ;;
  Ok (mk_globals u p).

(** ** Module constants (lines 24-38) *)

Definition coordinate : Type := (pyfloat * pyfloat)%type.

(** The registry [cities]: name to (latitude, longitude). *)
Definition cities : dict coordinate :=
  [ ("Bloomington", (decimal 39165325 6, decimal (-8652638569999999) 14));
    ("Chicago", (decimal 418781 4, decimal (-876298) 4));
    ("New York", (decimal 407128 4, decimal (-740060) 4));
    ("Los Angeles", (decimal 340522 4, decimal (-1182437) 4)) ].

Definition parameters : list string :=
  ["t_2m:C"; "precip_1h:mm"; "wind_speed_10m:ms"; "relative_humidity_2m:p"; "uv:idx"].

(** ** The outside world *)

(** The arguments of one [api.query_time_series] call. *)
Record query : Type := mk_query {
  q_coordinates : list coordinate;
  q_startdate : datetime;
  q_enddate : datetime;
  q_interval : timedelta;
  q_parameters : list string;
  q_username : option string;
  q_password : option string;
  q_model : string
}.

(** What [geolocator.geocode] finds. *)
Record location : Type := mk_location {
  address : string;
  latitude : pyfloat;
  longitude : pyfloat
}.

(** The collaborators of the handlers, as the answers they give:
    - [utcnow]: the wall clock, [datetime.now(timezone.utc)] without its zone;
    - [provider]: [api.query_time_series], whose table is then flattened by
      [reset_index] and [to_dict(orient='records')]; [inl msg] is an
      exception [e] with [str(e) = msg];
    - [timezone_at]: [tf.timezone_at(lng=.., lat=..)], which finds a zone
      name or none and raises [ValueError] for a coordinate outside its
      bounds;
    - [tzdb]: the zones pytz knows by name;
    - [geocode]: [geolocator.geocode]. *)
Record World : Type := mk_World {
  utcnow : datetime;
  provider : query -> string + list (dict pyvalue);
  timezone_at : pyfloat -> pyfloat -> result (option string);
  tzdb : string -> option zone;
  geocode : string -> result (option location)
}.

(** A call that leaves the process. *)
Inductive call : Type :=
| QueryTimeSeries (q : query)
| TimezoneAt (lng lat : pyfloat)
| Geocode (q : string).

(** ** Responses *)

(** The payloads handed to [jsonify]. *)
Inductive json : Type :=
| ErrorBody (error : string)
| CityNames (names : list string)
| LocationBody (name : string) (lat lon : pyfloat)
| WeatherBody (weather_data : list (dict pyvalue)) (timezone : string).

Record response : Type := mk_response {
  status : Z;
  body : json
}.

(** How a handler ends: with a response, or with an exception nobody
    caught (Flask answers 500 without a JSON payload). *)
Inductive outcome : Type :=
| Responded (r : response)
| Unhandled (e : exn).

(** ** Handler computations

    A handler logs the outside calls it makes and either goes on, returns
    a response early, or fails with an exception. *)
Inductive flow (A : Type) : Type :=
| Continue (a : A)
| Return (r : response)
| Fail (e : exn).
Arguments Continue {A} a.
Arguments Return {A} r.
Arguments Fail {A} e.

Definition handler (A : Type) : Type := (list call * flow A)%type.

Definition ret {A : Type} (a : A) : handler A := ([], Continue a).

Definition hbind {A B : Type} (m : handler A) (k : A -> handler B) : handler B :=
  match m with
  | (t, Continue a) => let '(t', f) := k a in ((t ++ t')%list, f)
  | (t, Return r) => (t, Return r)
  | (t, Fail e) => (t, Fail e)
  end.

Notation "x <~ m ;; k" := (hbind m (fun x => k))
  (at level 61, m at next level, right associativity).

(** [return jsonify(payload), code]. *)
Definition reply {A : Type} (code : Z) (payload : json) : handler A :=
  ([], Return (mk_response code payload)).

(** An evaluation outside any [try]. *)
Definition lift {A : Type} (r : result A) : handler A :=
  match r with
  | Ok a => ret a
  | Raise e => ([], Fail e)
  end.

(** An outside call [c] that answers [a]. *)
Definition perform {A : Type} (c : call) (a : A) : handler A := ([c], Continue a).

(** The end of a handler whose last statement returns [r]. *)
Definition finish (m : handler response) : list call * outcome :=
  match m with
  | (t, Continue r) => (t, Responded r)
  | (t, Return r) => (t, Responded r)
  | (t, Fail e) => (t, Unhandled e)
  end.

(** ** [get_cities] (lines 43-46) *)

Definition get_cities : list call * outcome :=
  finish (ret (mk_response 200 (CityNames (dict_keys cities)))).

(** ** [search_city] (lines 48-66) *)

(** [q] is [request.args.get('q', '')]. *)
Definition search_city (w : World) (q : option string) : list call * outcome :=
  let query := match q with Some s => s | None => "" end in
  finish (
    found <~ perform (Geocode query) (geocode w query) ;;
    match found with
    | Ok (Some loc) =>
        ret (mk_response 200 (LocationBody (address loc) (latitude loc) (longitude loc)))
    | Ok None => reply 404 (ErrorBody "City not found")
    | Raise GeocoderTimedOut => reply 503 (ErrorBody "Geocoding service unavailable")
    | Raise GeocoderUnavailable => reply 503 (ErrorBody "Geocoding service unavailable")
    | Raise e => lift (Raise e)
    end).

(** ** [get_weather] (lines 68-156) *)

(** [cities.get(city, default)]; the key [None] is in no registry. *)
Definition cities_get (city : option string) (default : coordinate) : coordinate :=
  match city with
  | Some name =>
      match dict_get name cities with
      | Some c => c
      | None => default
      end
  | None => default
  end.

(** [cities.get(city, cities['Bloomington'])], lines 77 and 121. *)
Definition resolve_city (city : option string) : result coordinate :=
  default <- dict_getitem "Bloomington" cities ;;
  Ok (cities_get city default).

(** [float(x)] for a request argument: [None] raises [TypeError]. *)
Definition float_of_arg (x : option string) : result pyfloat :=
  match x with
  | Some s => float_of_str s
  | None => Raise TypeError
  end.

(** Lines 80-87: the [try] block of the coordinate branch. *)
Definition resolve_coordinates (lat lon : option string) : handler (list coordinate) :=
  match (la <- float_of_arg lat ;; lo <- float_of_arg lon ;; Ok (la, lo)) with
  | Ok c => ret [c]
  | Raise ValueError => reply 400 (ErrorBody "Invalid latitude or longitude")
  | Raise e => lift (Raise e)
  end.

(** Lines 76-90: from the request arguments to [coordinates]. *)
Definition resolve_input (city lat lon : option string) : handler (list coordinate) :=
  if opt_truthy city then
    c <~ lift (resolve_city city) ;;
    ret [c]
  else if opt_truthy lat && opt_truthy lon then
    resolve_coordinates lat lon
  else
    reply 400 (ErrorBody "City or coordinates required").

(** Lines 92-94: [startdate], [enddate] and [interval]. *)
Definition time_window (now : datetime) : result (datetime * datetime * timedelta) :=
  let startdate := replace_time (replace_tzinfo now timezone_utc) 0 0 0 in
  enddate <- datetime_add startdate (timedelta_new 1 0 0 0 0) ;;
  let interval := timedelta_new 0 1 0 0 0 in
  Ok (startdate, enddate, interval).

(** Lines 98-112: the provider call, with its [except Exception]. *)
Definition fetch (g : globals) (w : World) (coordinates : list coordinate)
  (startdate enddate : datetime) (interval : timedelta) : handler (list (dict pyvalue)) :=
  let q := mk_query coordinates startdate enddate interval parameters
                    (username g) (password g) "mix" in
  answer <~ perform (QueryTimeSeries q) (provider w q) ;;
  match answer with
  | inr rows => ret rows
  | inl msg => reply 500 (ErrorBody msg)
  end.

(** Lines 120-123: the coordinate the zone is looked up for. *)
Definition zone_coordinate (city : option string) (coordinates : list coordinate)
  : result coordinate :=
  if opt_truthy city then resolve_city city
  else match coordinates with
       | c :: _ => Ok c
       | [] => Raise IndexError
       end.

(** Lines 126-129: the zone name, ["UTC"] when the lookup finds none.  The
    lookup stands outside every [try]: what it raises ends the request. *)
Definition lookup_timezone (w : World) (coord : coordinate) : handler string :=
  answer <~ perform (TimezoneAt (snd coord) (fst coord))
                    (timezone_at w (snd coord) (fst coord)) ;;
  found <~ lift answer ;;
  ret (if opt_truthy found then match found with Some s => s | None => "UTC" end
       else "UTC").

(** Lines 131-135: the zone object, [pytz.UTC] for a name pytz does not know. *)
Definition local_zone (w : World) (timezone_str : string) : result zone :=
  match pytz_timezone (tzdb w) timezone_str with
  | Ok z => Ok z
  | Raise (UnknownTimeZoneError _) => Ok pytz_UTC
  | Raise e => Raise e
  end.

(** Lines 141-147: one timestamp from UTC to local time; [None] on any
    exception. *)
Definition convert_validdate (local_tz : zone) (v : pyvalue) : pyvalue :=
  match (utc_time <- fromisoformat_value v ;;
         let utc_time := replace_tzinfo utc_time timezone_utc in
         local_time <- astimezone utc_time local_tz ;;
         isoformat local_time) with
  | Ok s => PyStr s
  | Raise _ => PyNone
  end.

(** Lines 139-150: the body of the loop over [weather_data]. *)
Definition localize_entry (local_tz : zone) (entry : dict pyvalue) : dict pyvalue :=
  match dict_get "validdate" entry with
  | Some v =>
      if truthy v then dict_set "validdate" (convert_validdate local_tz v) entry
      else dict_set "validdate" PyNone entry
  | None => dict_set "validdate" PyNone entry
  end.

(** The handler of [GET /weather]; [city], [lat] and [lon] are
    [request.args.get] of the three names. *)
Definition get_weather (g : globals) (w : World) (city lat lon : option string)
  : list call * outcome :=
  finish (
    coordinates <~ resolve_input city lat lon ;;
    window <~ lift (time_window (utcnow w)) ;;
    let '(startdate, enddate, interval) := window in
    weather_data <~ fetch g w coordinates startdate enddate interval ;;
    coord <~ lift (zone_coordinate city coordinates) ;;
    timezone_str <~ lookup_timezone w coord ;;
    local_tz <~ lift (local_zone w timezone_str) ;;
    ret (mk_response 200
           (WeatherBody (map (localize_entry local_tz) weather_data) timezone_str))).

(** ** The served application *)

Inductive request : Type :=
| GetCities
| GetSearch (q : option string)
| GetWeather (city lat lon : option string).

Definition dispatch (g : globals) (w : World) (r : request) : list call * outcome :=
  match r with
  | GetCities => get_cities
  | GetSearch q => search_city w q
  | GetWeather city lat lon => get_weather g w city lat lon
  end.

(** What a client gets from the process started in environment [env]: the
    module body runs first, and only a module that loaded serves requests. *)
Inductive served : Type :=
| ImportFailed (e : exn)
| Handled (calls : list call) (o : outcome).

Definition serve (env : environ) (w : World) (r : request) : served :=
  match module_init env with
  | Raise e => ImportFailed e
  | Ok g => let '(calls, o) := dispatch g w r in Handled calls o
  end.

(* ================================================================== *)
(** * Part III-b. Notions the statements use                           *)
(* ================================================================== *)

(** The coordinate of the default city. *)
Definition bloomington : coordinate :=
  (decimal 39165325 6, decimal (-8652638569999999) 14).

(** The range a latitude and a longitude are meant to lie in:
    [-90, 90] and [-180, 180].  Infinities and NaN lie in no range. *)
Definition within (lo hi : Z) (x : pyfloat) : bool :=
  match x with
  | Finite q => Qle_bool (inject_Z lo) q && Qle_bool q (inject_Z hi)
  | _ => false
  end.

Definition in_range (c : coordinate) : bool :=
  within (-90) 90 (fst c) && within (-180) 180 (snd c).

(** An argument is present when the query string carries its name,
    whatever the value. *)
Definition present (o : option string) : bool :=
  match o with
  | Some _ => true
  | None => false
  end.

(** Input resolution decided by presence alone, to compare with
    [resolve_input], which the source decides by truth value. *)
Definition resolve_input_by_presence (city lat lon : option string)
  : handler (list coordinate) :=
  if present city then
    c <~ lift (resolve_city city) ;;
    ret [c]
  else if present lat && present lon then
    resolve_coordinates lat lon
  else
    reply 400 (ErrorBody "City or coordinates required").

(** A wall time, in microseconds, that a datetime can hold:
    0001-01-01T00:00:00 up to 9999-12-31T23:59:59.999999. *)
Definition representable (us : Z) : Prop :=
  US_PER_DAY <= us < (MAXORDINAL + 1) * US_PER_DAY.

(** An offset in seconds that a zone may have: less than a day. *)
Definition valid_offset (seconds_east : Z) : Prop :=
  - 86400 < seconds_east < 86400.

(** An offset [fromisoformat] reads back as it is: zero, or one second at
    least (an offset below one second is read as UTC). *)
Definition readable_offset (off : Z) : Prop :=
  Z.abs off < US_PER_SECOND -> off = 0.

(** The zone name the handler settles on when the lookup returned [found]
    (lines 126-128). *)
Definition timezone_name (found : option string) : string :=
  match found with
  | Some (String c s) => String c s
  | _ => "UTC"
  end.

(** The zone object the handler converts with (lines 131-135). *)
Definition zone_of (w : World) (name : string) : zone :=
  match pytz_timezone (tzdb w) name with
  | Ok z => z
  | Raise _ => pytz_UTC
  end.

(** The provider call the handler makes for [coordinates] in the window
    [(startdate, enddate, interval)]. *)
Definition weather_query (g : globals) (coordinates : list coordinate)
  (window : datetime * datetime * timedelta) : query :=
  let '(startdate, enddate, interval) := window in
  mk_query coordinates startdate enddate interval parameters
           (username g) (password g) "mix".

(** What lines 139-150 leave in the [validdate] field of a row that held
    [old] there ([None]: the row has no such key), in the zone [z].  A
    string that parses to the wall time [d] is read as that wall time in
    UTC, whatever offset it carries; with [off] the offset of [z] at that
    instant, the field becomes the ISO-8601 text, offset included, of the
    datetime [l] that denotes the same instant [off] away from UTC,
    provided [off] is below a day and the wall time of [l] is within the
    calendar, and [None] if not.  Anything else becomes [None]: a missing
    or empty field, a value that is no string, a string that does not
    parse. *)
Definition localized_as (z : zone) (old : option pyvalue) (new : pyvalue) : Prop :=
  match old with
  | Some (PyStr s) =>
      match fromisoformat s with
      | Ok d =>
          let off := z (naive_us d) in
          let convertible :=
            valid_offset off /\ representable (naive_us d + off * US_PER_SECOND) in
          (convertible ->
           exists l s',
             new = PyStr s'
             /\ isoformat l = Ok s' /\ fromisoformat s' = Ok l
             /\ valid_datetime l = true
             /\ tzinfo l = Some (off * US_PER_SECOND)
             /\ instant l = naive_us d)
          /\ (~ convertible -> new = PyNone)
      | Raise _ => new = PyNone
      end
  | _ => new = PyNone
  end.

(** ** Sample worlds *)

Definition sample_rows : list (dict pyvalue) :=
  [ [("validdate", PyStr "2024-06-01T12:00:00+00:00"); ("t_2m:C", PyFloat (decimal 215 1))];
    [("validdate", PyStr "not a date"); ("t_2m:C", PyFloat (decimal 220 1))];
    [("t_2m:C", PyFloat (decimal 225 1))] ].

(** Central Standard Time all year: six hours west of Greenwich. *)
Definition six_hours_west : zone := fun _ => -21600.

Definition sample_tzdb (name : string) : option zone :=
  if (name =? "America/Chicago")%string then Some six_hours_west else None.

(** A geographic lookup that answers [tzname] everywhere within latitude
    [-90, 90] and longitude [-180, 180] and raises outside, as timezonefinder
    does. *)
Definition bounded_lookup (tzname : option string) (lng lat : pyfloat)
  : result (option string) :=
  if in_range (lat, lng) then Ok tzname else Raise ValueError.

(** A world whose provider answers, whose geographic lookup names the zone
    [tzname], and whose clock shows [now]. *)
Definition sample_world (now : datetime) (tzname : option string) : World :=
  mk_World now (fun _ => inr sample_rows) (bounded_lookup tzname) sample_tzdb
           (fun _ => Ok None).

(** 2024-06-01, 11:22:33.000444. *)
Definition sample_clock : datetime := mk_datetime 2024 6 1 11 22 33 444 None.

Definition last_day : datetime := mk_datetime 9999 12 31 12 30 0 0 None.

Definition no_credentials : globals := mk_globals None None.

(* ================================================================== *)
(** * Part IV. Lemmas about the runtime model                           *)
(* ================================================================== *)

(** ** Checkers used by the proofs *)

(** The integers [0 .. n-1]. *)
Definition Zrange (n : nat) : list Z := map Z.of_nat (seq 0 n).

(** [month_day] lands in a real month and day, on the right day of the year. *)
Definition month_day_ok (leap : bool) (r : Z) : bool :=
  let '(m, d) := month_day leap r in
  (1 <=? m) && (m <=? 12) && (1 <=? d)
  && (d <=? DAYS_IN_MONTH m + (if (m =? 2) && leap then 1 else 0))
  && (DAYS_BEFORE_MONTH m + (if (2 <? m) && leap then 1 else 0) + d =? r + 1).

(** [month_day] finds every day of month [m] again. *)
Definition day_month_ok (leap : bool) (m : Z) : bool :=
  forallb (fun d0 =>
     let d := d0 + 1 in
     negb (d <=? DAYS_IN_MONTH m + (if (m =? 2) && leap then 1 else 0))
     || (let r := DAYS_BEFORE_MONTH m + (if (2 <? m) && leap then 1 else 0) + d - 1 in
         negb (r <? 365) ||
         (let '(m', d') := month_day leap r in (m' =? m) && (d' =? d))))
    (Zrange 31).

(** A month and a day that exist in year [y]. *)
Definition valid_date (y m d : Z) : Prop :=
  1 <= m <= 12 /\ 1 <= d <= days_in_month y m.

(** No zone mark occurs in [s]. *)
Fixpoint unsigned_text (s : string) : bool :=
  match s with
  | EmptyString => true
  | String c s' => negb (is_tz_char c) && unsigned_text s'
  end.

(** Wall time of day, in microseconds. *)
Definition time_of_day_us (d : datetime) : Z :=
  ((hour d * 60 + minute d) * 60 + second d) * US_PER_SECOND + microsecond d.

(** Evaluate comparisons and table lookups, and nothing else. *)
Ltac calc := cbn [Z.eqb Z.ltb Z.leb Z.compare Pos.compare Pos.compare_cont Pos.eqb andb orb negb
                   DAYS_BEFORE_MONTH DAYS_IN_MONTH] in *.


(** ** The calendar: [ymd2ord] and [ord2ymd] are inverse *)

Lemma dby_formula a b c e :
  0 <= b < 4 -> 0 <= c < 25 -> 0 <= e < 4 ->
  days_before_year (400 * a + 100 * b + 4 * c + e + 1) = 146097 * a + 36524 * b + 1461 * c + 365 * e.
Proof.
  intros. unfold days_before_year. cbv zeta.
  Z.to_euclidean_division_equations. lia.
Qed.


Lemma is_leap_formula a b c e :
  0 <= b < 4 -> 0 <= c < 25 -> 0 <= e < 4 ->
  is_leap (400 * a + 100 * b + 4 * c + e + 1) = (e =? 3) && (negb (c =? 24) || (b =? 3)).
Proof.
  intros Hb Hc He. unfold is_leap.
  set (y := 400 * a + 100 * b + 4 * c + e + 1).
  assert (E4 : y mod 4 = 0 <-> e = 3).
  { subst y. Z.to_euclidean_division_equations. lia. }
  assert (E100 : y mod 100 = 0 <-> (e = 3 /\ c = 24)).
  { subst y. Z.to_euclidean_division_equations. lia. }
  assert (E400 : y mod 400 = 0 <-> (e = 3 /\ c = 24 /\ b = 3)).
  { subst y. Z.to_euclidean_division_equations. lia. }
  destruct (Z.eqb_spec (y mod 4) 0), (Z.eqb_spec (y mod 100) 0), (Z.eqb_spec (y mod 400) 0),
    (Z.eqb_spec e 3), (Z.eqb_spec c 24), (Z.eqb_spec b 3); cbn; try reflexivity; exfalso; lia.
Qed.

Lemma Zrange_forallb (P : Z -> bool) (n : nat) :
  forallb P (Zrange n) = true -> forall z, 0 <= z < Z.of_nat n -> P z = true.
Proof.
  intros H z Hz. rewrite forallb_forall in H. apply H.
  unfold Zrange. apply in_map_iff. exists (Z.to_nat z). split; [lia|].
  apply in_seq. lia.
Qed.

Lemma month_day_spec leap r :
  0 <= r < 365 -> month_day_ok leap r = true.
Proof.
  intros Hr. revert r Hr. apply (Zrange_forallb (month_day_ok leap) 365).
  destruct leap; vm_compute; reflexivity.
Qed.

Lemma day_month_spec leap m d :
  1 <= m <= 12 -> 1 <= d <= DAYS_IN_MONTH m + (if (m =? 2) && leap then 1 else 0) ->
  DAYS_BEFORE_MONTH m + (if (2 <? m) && leap then 1 else 0) + d - 1 < 365 ->
  month_day leap (DAYS_BEFORE_MONTH m + (if (2 <? m) && leap then 1 else 0) + d - 1) = (m, d).
Proof.
  intros Hm Hd Hr.
  assert (Hall : forallb (fun m0 => day_month_ok leap (m0 + 1)) (Zrange 12) = true)
    by (destruct leap; vm_compute; reflexivity).
  assert (H1 := Zrange_forallb _ 12 Hall (m - 1)). specialize (H1 ltac:(lia)). cbv beta in H1.
  replace (m - 1 + 1) with m in H1 by lia. unfold day_month_ok in H1.
  assert (Hd31 : d <= 31).
  { assert (m = 1 \/ m = 2 \/ m = 3 \/ m = 4 \/ m = 5 \/ m = 6 \/ m = 7 \/ m = 8
            \/ m = 9 \/ m = 10 \/ m = 11 \/ m = 12) as Hc by lia.
    clear - Hd Hc. destruct leap;
      repeat (destruct Hc as [Hc | Hc]; [subst m; cbn in Hd; lia|]); subst m; cbn in Hd; lia. }
  assert (H2 := Zrange_forallb _ 31 H1 (d - 1)). specialize (H2 ltac:(lia)). cbv beta zeta in H2.
  replace (d - 1 + 1) with d in H2 by lia.
  apply orb_true_iff in H2. destruct H2 as [H2 | H2].
  { apply negb_true_iff, Z.leb_gt in H2. lia. }
  apply orb_true_iff in H2. destruct H2 as [H2 | H2].
  { apply negb_true_iff, Z.ltb_ge in H2. lia. }
  destruct (month_day leap _) as [m' d'].
  apply andb_true_iff in H2. destruct H2 as [Hm' Hd'].
  apply Z.eqb_eq in Hm', Hd'. congruence.
Qed.

Lemma ord2ymd_decompose n :
  exists a b c e r,
    n - 1 = 146097 * a + 36524 * b + 1461 * c + 365 * e + r
    /\ 0 <= b <= 4 /\ 0 <= c < 25 /\ 0 <= e <= 4 /\ 0 <= r < 365
    /\ 0 <= 36524 * b + 1461 * c + 365 * e + r < 146097
    /\ 0 <= 1461 * c + 365 * e + r < 36524
    /\ 0 <= 365 * e + r < 1461
    /\ ord2ymd n =
       if (e =? 4) || (b =? 4) then (400 * a + 100 * b + 4 * c + e, 12, 31)
       else let '(month, day) := month_day ((e =? 3) && (negb (c =? 24) || (b =? 3))) r in
            (400 * a + 100 * b + 4 * c + e + 1, month, day).
Proof.
  unfold ord2ymd, DI400Y, DI100Y, DI4Y. cbv zeta.
  set (n0 := n - 1).
  set (a := n0 / 146097). set (r1 := n0 mod 146097).
  set (b := r1 / 36524). set (r2 := r1 mod 36524).
  set (c := r2 / 1461). set (r3 := r2 mod 1461).
  set (e := r3 / 365). set (r := r3 mod 365).
  exists a, b, c, e, r.
  assert (H1 : n0 = 146097 * a + r1 /\ 0 <= r1 < 146097)
    by (subst a r1; split; [apply Z.div_mod; lia | apply Z.mod_pos_bound; lia]).
  assert (H2 : r1 = 36524 * b + r2 /\ 0 <= r2 < 36524)
    by (subst b r2; split; [apply Z.div_mod; lia | apply Z.mod_pos_bound; lia]).
  assert (H3 : r2 = 1461 * c + r3 /\ 0 <= r3 < 1461)
    by (subst c r3; split; [apply Z.div_mod; lia | apply Z.mod_pos_bound; lia]).
  assert (H4 : r3 = 365 * e + r /\ 0 <= r < 365)
    by (subst e r; split; [apply Z.div_mod; lia | apply Z.mod_pos_bound; lia]).
  clearbody a r1 b r2 c r3 e r n0.
  repeat split; try lia.
  destruct ((e =? 4) || (b =? 4)); [f_equal; f_equal; lia|].
  destruct (month_day _ r). f_equal. f_equal. lia.
Qed.

Lemma ord2ymd_ymd2ord n :
  let '(y, m, d) := ord2ymd n in
  ymd2ord y m d = n /\ 1 <= m <= 12 /\ 1 <= d <= days_in_month y m.
Proof.
  destruct (ord2ymd_decompose n) as (a & b & c & e & r & Hn & Hb & Hc & He & Hr & B1 & B2 & B3 & ->).
  destruct (Z.eqb_spec e 4) as [E4 | E4]; [cbn [orb] | destruct (Z.eqb_spec b 4) as [B4 | B4]; cbn [orb]].
  - (* last day of a leap year closing a four-year cycle *)
    subst e. assert (r = 0) by lia. subst r. assert (c <= 23) by lia. assert (b <= 3) by lia.
    unfold ymd2ord, days_before_month, days_in_month.
    replace (400 * a + 100 * b + 4 * c + 4) with (400 * a + 100 * b + 4 * c + 3 + 1) by lia.
    rewrite dby_formula, is_leap_formula by lia.
    replace (c =? 24) with false by (symmetry; apply Z.eqb_neq; lia).
    calc. lia.
  - (* last day of a 400-year cycle *)
    subst b. assert (c = 0 /\ e = 0 /\ r = 0) as (-> & -> & ->) by lia.
    unfold ymd2ord, days_before_month, days_in_month.
    replace (400 * a + 100 * 4 + 4 * 0 + 0) with (400 * (a + 1) + 100 * 0 + 4 * 0 + 0) by lia.
    replace (400 * (a + 1) + 100 * 0 + 4 * 0 + 0) with (400 * a + 100 * 3 + 4 * 24 + 3 + 1) by lia.
    rewrite dby_formula, is_leap_formula by lia. calc. lia.
  - pose proof (month_day_spec ((e =? 3) && (negb (c =? 24) || (b =? 3))) r Hr) as Hmd.
    unfold month_day_ok in Hmd.
    destruct (month_day _ r) as [m d].
    unfold ymd2ord, days_before_month, days_in_month.
    rewrite dby_formula, is_leap_formula by lia.
    repeat (apply andb_true_iff in Hmd; destruct Hmd as [Hmd ?]).
    set (leap := (e =? 3) && _) in *. clearbody leap.
    destruct (Z.eqb_spec m 2) as [-> | Hm2]; calc; destruct leap; calc; try lia;
      destruct (Z.ltb_spec 2 m); calc; lia.
Qed.

Lemma radix_unique k a a' x x' :
  k * a + x = k * a' + x' -> 0 <= x < k -> 0 <= x' < k -> a = a' /\ x = x'.
Proof.
  intros E Hx Hx'.
  assert (a = a') by nia. subst a'. split; [reflexivity | lia].
Qed.

Lemma decompose_unique a b c e r a' b' c' e' r' :
  146097 * a + 36524 * b + 1461 * c + 365 * e + r
  = 146097 * a' + 36524 * b' + 1461 * c' + 365 * e' + r' ->
  0 <= 36524 * b + 1461 * c + 365 * e + r < 146097 ->
  0 <= 1461 * c + 365 * e + r < 36524 ->
  0 <= 365 * e + r < 1461 ->
  0 <= r < 365 ->
  0 <= 36524 * b' + 1461 * c' + 365 * e' + r' < 146097 ->
  0 <= 1461 * c' + 365 * e' + r' < 36524 ->
  0 <= 365 * e' + r' < 1461 ->
  0 <= r' < 365 ->
  a' = a /\ b' = b /\ c' = c /\ e' = e /\ r' = r.
Proof.
  intros E B1 B2 B3 B4 B1' B2' B3' B4'.
  destruct (radix_unique 146097 a a' (36524 * b + 1461 * c + 365 * e + r)
              (36524 * b' + 1461 * c' + 365 * e' + r')) as [-> E1]; [lia | lia | lia |].
  destruct (radix_unique 36524 b b' (1461 * c + 365 * e + r)
              (1461 * c' + 365 * e' + r')) as [-> E2]; [lia | lia | lia |].
  destruct (radix_unique 1461 c c' (365 * e + r) (365 * e' + r')) as [-> E3]; [lia | lia | lia |].
  destruct (radix_unique 365 e e' r r') as [-> E4]; [lia | lia | lia |].
  subst. repeat split.
Qed.

Lemma ymd2ord_ord2ymd y m d :
  valid_date y m d -> ord2ymd (ymd2ord y m d) = (y, m, d).
Proof.
  intros [Hm Hd].
  set (y0 := y - 1).
  set (a := y0 / 400). set (q1 := y0 mod 400).
  set (b := q1 / 100). set (q2 := q1 mod 100).
  set (c := q2 / 4). set (e := q2 mod 4).
  assert (H1 : y0 = 400 * a + q1 /\ 0 <= q1 < 400)
    by (subst a q1; split; [apply Z.div_mod; lia | apply Z.mod_pos_bound; lia]).
  assert (H2 : q1 = 100 * b + q2 /\ 0 <= q2 < 100)
    by (subst b q2; split; [apply Z.div_mod; lia | apply Z.mod_pos_bound; lia]).
  assert (H3 : q2 = 4 * c + e /\ 0 <= e < 4)
    by (subst c e; split; [apply Z.div_mod; lia | apply Z.mod_pos_bound; lia]).
  clearbody a q1 b q2 c e.
  assert (Hy : y = 400 * a + 100 * b + 4 * c + e + 1) by lia.
  assert (Hb : 0 <= b < 4) by lia. assert (Hc : 0 <= c < 25) by lia.
  clear H1 H2 y0. destruct H3 as [_ He].
  pose proof (dby_formula a b c e Hb Hc He) as Hdby.
  pose proof (is_leap_formula a b c e Hb Hc He) as Hleap.
  rewrite <- Hy in Hdby, Hleap.
  destruct (ord2ymd_decompose (ymd2ord y m d))
    as (a' & b' & c' & e' & r' & Hn & Hb' & Hc' & He' & Hr' & B1 & B2 & B3 & ->).
  unfold ymd2ord, days_before_month in Hn. unfold days_in_month in Hd.
  rewrite Hdby in Hn. clear Hdby.
  set (leap := is_leap y) in *. clearbody leap.
  assert (Hmc : m = 1 \/ m = 2 \/ m = 3 \/ m = 4 \/ m = 5 \/ m = 6 \/ m = 7 \/ m = 8
            \/ m = 9 \/ m = 10 \/ m = 11 \/ m = 12) by lia.
  assert (Hd' : 1 <= d <= DAYS_IN_MONTH m + (if (m =? 2) && leap then 1 else 0)).
  { clear - Hd Hmc. destruct leap;
      repeat (destruct Hmc as [Hmc | Hmc]; [subst m; calc; lia|]); subst m; calc; lia. }
  set (r := DAYS_BEFORE_MONTH m + (if (2 <? m) && leap then 1 else 0) + d - 1) in *.
  assert (Hr : 0 <= r <= 364 + (if leap then 1 else 0)
               /\ (r = 365 -> m = 12 /\ d = 31)).
  { subst r. clear - Hmc Hd'. destruct leap;
      repeat (destruct Hmc as [Hmc | Hmc]; [subst m; calc; lia|]); subst m; calc; lia. }
  destruct Hr as [Hr Hlast].
  assert (Hn' : 146097 * a' + 36524 * b' + 1461 * c' + 365 * e' + r'
                = 146097 * a + 36524 * b + 1461 * c + 365 * e + r) by (subst r; lia).
  clear Hn.
  destruct (Z.ltb_spec r 365) as [Hlt | Hge].
  - assert (a' = a /\ b' = b /\ c' = c /\ e' = e /\ r' = r) as (-> & -> & -> & -> & ->)
      by (apply (decompose_unique a b c e r); lia).
    replace (e =? 4) with false by (symmetry; apply Z.eqb_neq; lia).
    replace (b =? 4) with false by (symmetry; apply Z.eqb_neq; lia).
    cbn [orb]. rewrite <- Hleap. subst r.
    rewrite day_month_spec by (try assumption; lia).
    f_equal. f_equal. lia.
  - assert (Hl : leap = true) by (destruct leap; [reflexivity | lia]).
    clearbody r. rewrite Hl in *. assert (Hr365 : r = 365) by lia.
    destruct (Hlast Hr365) as [-> ->]. clear Hlast.
    symmetry in Hleap. apply andb_true_iff in Hleap. destruct Hleap as [E3 Hcb].
    apply Z.eqb_eq in E3. subst e.
    apply orb_true_iff in Hcb.
    destruct (Z.eq_dec c 24) as [-> | Hc24].
    + assert (b = 3) as -> by (destruct Hcb as [Hcb | Hcb]; [discriminate Hcb | now apply Z.eqb_eq]).
      assert (a' = a /\ b' = 4 /\ c' = 0 /\ e' = 0 /\ r' = 0) as (-> & -> & -> & -> & ->)
        by (apply (decompose_unique a 4 0 0 0); lia).
      calc. f_equal. f_equal. lia.
    + assert (a' = a /\ b' = b /\ c' = c /\ e' = 4 /\ r' = 0) as (-> & -> & -> & -> & ->)
        by (apply (decompose_unique a b c 4 0); lia).
      calc. f_equal. f_equal. lia.
Qed.

(** ** Strings and digits *)

Lemma append_assoc_s (a b c : string) : ((a ++ b) ++ c = a ++ (b ++ c))%string.
Proof. induction a as [|x a IH]; cbn; [reflexivity | now rewrite IH]. Qed.

Lemma append_nil_r_s (a : string) : (a ++ "" = a)%string.
Proof. induction a as [|x a IH]; cbn; [reflexivity | now rewrite IH]. Qed.

Lemma digit_char_spec d :
  0 <= d < 10 ->
  is_digit (digit_char d) = true /\ digit_val (digit_char d) = d
  /\ is_tz_char (digit_char d) = false.
Proof.
  intros H.
  assert (d = 0 \/ d = 1 \/ d = 2 \/ d = 3 \/ d = 4 \/ d = 5 \/ d = 6 \/ d = 7 \/ d = 8 \/ d = 9)
    as Hc by lia.
  repeat (destruct Hc as [Hc | Hc]; [subst d; vm_compute; repeat split; reflexivity|]).
  subst d; vm_compute; repeat split; reflexivity.
Qed.

(** A digit is not the week mark. *)
Lemma digit_char_not_W d : 0 <= d < 10 -> Ascii.eqb (digit_char d) "W" = false.
Proof.
  intros H.
  assert (d = 0 \/ d = 1 \/ d = 2 \/ d = 3 \/ d = 4 \/ d = 5 \/ d = 6 \/ d = 7 \/ d = 8 \/ d = 9)
    as Hc by lia.
  repeat (destruct Hc as [Hc | Hc]; [subst d; reflexivity|]).
  subst d; reflexivity.
Qed.

Lemma parse_digits_fixed w : forall n acc rest,
  parse_digits w acc (fixed_digits w n ++ rest)
  = Some (acc * 10 ^ Z.of_nat w + n mod 10 ^ Z.of_nat w, rest).
Proof.
  induction w as [|w IH]; intros n acc rest.
  - cbn [parse_digits fixed_digits append]. f_equal. f_equal.
    change (10 ^ Z.of_nat 0) with 1. rewrite Z.mod_1_r. lia.
  - cbn [parse_digits fixed_digits append].
    set (p := 10 ^ Z.of_nat w).
    assert (Hp : 0 < p) by (subst p; apply Z.pow_pos_nonneg; lia).
    destruct (digit_char_spec (n / p mod 10)) as (Hd & Hv & _).
    { apply Z.mod_pos_bound; lia. }
    rewrite Hd, IH, Hv. f_equal. f_equal. fold p.
    replace (10 ^ Z.of_nat (S w)) with (p * 10)
      by (subst p; rewrite Nat2Z.inj_succ, Z.pow_succ_r; lia).
    rewrite Z.rem_mul_r by lia. lia.
Qed.

Lemma parse_digits_exact w n rest :
  0 <= n < 10 ^ Z.of_nat w ->
  parse_digits w 0 (fixed_digits w n ++ rest) = Some (n, rest).
Proof.
  intros H. rewrite parse_digits_fixed, Z.mod_small by assumption. reflexivity.
Qed.

Lemma unsigned_text_app a b :
  unsigned_text (a ++ b) = unsigned_text a && unsigned_text b.
Proof.
  induction a as [|c a IH]; cbn; [reflexivity|]. rewrite IH. now rewrite andb_assoc.
Qed.

Lemma unsigned_fixed_digits w n : unsigned_text (fixed_digits w n) = true.
Proof.
  induction w as [|w IH]; cbn [fixed_digits unsigned_text]; [reflexivity|].
  destruct (digit_char_spec (n / 10 ^ Z.of_nat w mod 10)) as (_ & _ & Hs).
  { apply Z.mod_pos_bound; lia. }
  rewrite Hs, IH. reflexivity.
Qed.

Lemma length_fixed_digits w n : String.length (fixed_digits w n) = w.
Proof. induction w as [|w IH]; cbn [fixed_digits String.length]; congruence. Qed.

Lemma length_append_s (a b : string) :
  String.length (a ++ b) = (String.length a + String.length b)%nat.
Proof. induction a as [|c a IH]; cbn; [reflexivity | now rewrite IH]. Qed.

(** The pointer moved over a prefix, and then further. *)
Lemma skip_app (a b : string) k : skip (String.length a + k) (a ++ b) = skip k b.
Proof. induction a as [|c a IH]; cbn [String.length append skip Nat.add]; auto. Qed.

Lemma skip_digits_then w n rest : skip w (fixed_digits w n ++ rest) = rest.
Proof.
  induction w as [|w IH]; cbn [fixed_digits append skip]; [destruct rest; reflexivity | exact IH].
Qed.

Lemma skip_digits_then_one w n c rest :
  skip (S w) (fixed_digits w n ++ String c rest) = rest.
Proof.
  induction w as [|w IH]; cbn [fixed_digits append skip]; [destruct rest; reflexivity | exact IH].
Qed.

Lemma skip_nil n : skip n "" = "".
Proof. destruct n; reflexivity. Qed.

Lemma skip_add a : forall b p, skip (a + b) p = skip b (skip a p).
Proof.
  induction a as [|a IH]; intros b p.
  - destruct p; reflexivity.
  - destruct p as [|c p]; cbn [Nat.add skip]; [now rewrite !skip_nil | apply IH].
Qed.

(** The date [isoformat] prints is ten bytes long. *)
Lemma skip_date y m d rest :
  skip 10 (fixed_digits 4 y ++ "-" ++ fixed_digits 2 m ++ "-" ++ fixed_digits 2 d ++ rest)
  = rest.
Proof.
  change 10%nat with (5 + (3 + 2))%nat. rewrite !skip_add. cbn [append].
  rewrite !skip_digits_then_one. apply skip_digits_then.
Qed.

Lemma skip_0 (p : string) : skip 0 p = p.
Proof. destruct p; reflexivity. Qed.

Lemma skip_length_app (a b : string) : skip (String.length a) (a ++ b) = b.
Proof.
  rewrite <- (Nat.add_0_r (String.length a)). rewrite skip_app. apply skip_0.
Qed.

(** The zone mark of a text is looked for past a prefix that has none. *)
Lemma tz_position_app a b :
  unsigned_text a = true ->
  tz_position (a ++ b) = (String.length a + tz_position b)%nat.
Proof.
  induction a as [|c a IH]; cbn [append tz_position unsigned_text String.length Nat.add];
    intros H; [reflexivity|].
  apply andb_true_iff in H. destruct H as [Hc Ha]. apply negb_true_iff in Hc.
  rewrite Hc, (IH Ha). reflexivity.
Qed.

Lemma skip_digits_stop p : is_digit (peek p) = false -> skip_digits p = p.
Proof. destruct p as [|c p]; cbn [peek skip_digits]; intros H; [reflexivity|]. now rewrite H. Qed.

(** ** Reading back what [isoformat] prints *)

Lemma check_time_fields_spec h mi s us :
  check_time_fields h mi s us = true <->
  0 <= h <= 23 /\ 0 <= mi <= 59 /\ 0 <= s <= 59 /\ 0 <= us <= 999999.
Proof. unfold check_time_fields. rewrite !andb_true_iff, !Z.leb_le. tauto. Qed.

Lemma check_utc_offset_spec off :
  check_utc_offset off = true <-> - US_PER_DAY < off < US_PER_DAY.
Proof. unfold check_utc_offset. rewrite andb_true_iff, !Z.ltb_lt. tauto. Qed.

(** Two digits, with the bound spelled out. *)
Lemma parse_two_digits n rest :
  0 <= n <= 99 -> parse_digits 2 0 (fixed_digits 2 n ++ rest) = Some (n, rest).
Proof. intros H. apply parse_digits_exact. change (10 ^ Z.of_nat 2) with 100. lia. Qed.

(** One turn of the loop of [parse_hh_mm_ss_ff]: a component followed by a
    colon, with more to come. *)
Lemma parse_component_colon todo i hs vals v rest len :
  0 <= v <= 99 -> 3 < len -> (if Nat.eqb i 0 then true else hs) = true ->
  parse_components (S todo) i hs vals (fixed_digits 2 v ++ String ":" rest) len
  = parse_components todo (S i) true (set_component i v vals) rest (len - 3).
Proof.
  intros Hv Hlen Hs. cbn [parse_components]. rewrite parse_two_digits by assumption.
  cbn [peek skip]. change (Ascii.eqb ":" ":") with true.
  destruct (Z.leb_spec (len - 3) 0) as [Hle | _]; [lia|].
  destruct (Nat.eqb i 0); [reflexivity|]. rewrite Hs. reflexivity.
Qed.

(** The component at which the text ends. *)
Lemma parse_component_last todo i hs vals v rest len :
  0 <= v <= 99 -> len <= 3 ->
  parse_components (S todo) i hs vals (fixed_digits 2 v ++ rest) len
  = (let '(h, m, s) := set_component i v vals in
     Some (h, m, s, 0, negb (Ascii.eqb (peek rest) NUL))).
Proof.
  intros Hv Hlen. cbn [parse_components]. rewrite parse_two_digits by assumption.
  destruct (Z.leb_spec (len - 3) 0) as [_ | Hgt]; [|lia].
  cbv zeta. destruct (set_component i v vals) as [[h m] s]. reflexivity.
Qed.

(** The seconds, followed by a point. *)
Lemma parse_component_point todo i hs vals v rest len :
  0 <= v <= 99 -> 3 < len ->
  parse_components (S todo) i hs vals (fixed_digits 2 v ++ String "." rest) len
  = parse_fraction (set_component i v vals) rest (len - 3).
Proof.
  intros Hv Hlen. cbn [parse_components]. rewrite parse_two_digits by assumption.
  cbn [peek skip]. change (Ascii.eqb "." ":") with false.
  change (Ascii.eqb "." ".") with true.
  destruct (Z.leb_spec (len - 3) 0) as [Hle | _]; [lia|].
  rewrite andb_false_r. reflexivity.
Qed.

(** The six digits [isoformat] prints for the microseconds. *)
Lemma parse_fraction_six h m s us rest :
  0 <= us <= 999999 -> is_digit (peek rest) = false ->
  parse_fraction (h, m, s) (fixed_digits 6 us ++ rest) 6
  = Some (h, m, s, us, negb (Ascii.eqb (peek rest) NUL)).
Proof.
  intros Hus Hrest. unfold parse_fraction. change (6 <=? 6) with true. cbv iota.
  rewrite parse_digits_exact by (change (10 ^ Z.of_nat 6) with 1000000; lia).
  rewrite skip_digits_stop by assumption.
  change (10 ^ Z.of_nat (6 - 6)) with 1. rewrite Z.mul_1_r. reflexivity.
Qed.

Lemma length_format_time h mi s us :
  String.length (format_time h mi s us) = if us =? 0 then 8%nat else 15%nat.
Proof.
  unfold format_time. rewrite !length_append_s, !length_fixed_digits.
  destruct (us =? 0); [reflexivity|].
  rewrite !length_append_s, !length_fixed_digits. reflexivity.
Qed.

(** The wall time, as printed, reads back to its fields, whatever follows
    it, be it the end or a zone. *)
Lemma parse_hh_mm_ss_ff_format h mi s us rest :
  0 <= h <= 99 -> 0 <= mi <= 99 -> 0 <= s <= 99 -> 0 <= us <= 999999 ->
  is_digit (peek rest) = false ->
  parse_hh_mm_ss_ff (format_time h mi s us ++ rest)
                    (Z.of_nat (String.length (format_time h mi s us)))
  = Some (h, mi, s, us, negb (Ascii.eqb (peek rest) NUL)).
Proof.
  intros Hh Hmi Hs Hus Hrest. rewrite length_format_time.
  unfold parse_hh_mm_ss_ff, format_time.
  destruct (Z.eqb_spec us 0) as [-> | Hne].
  - repeat (rewrite append_assoc_s; cbn [append]).
    rewrite parse_component_colon by (cbn; lia || reflexivity).
    rewrite parse_component_colon by (cbn; lia || reflexivity).
    rewrite parse_component_last by (cbn; lia). reflexivity.
  - repeat (rewrite append_assoc_s; cbn [append]).
    rewrite parse_component_colon by (cbn; lia || reflexivity).
    rewrite parse_component_colon by (cbn; lia || reflexivity).
    rewrite parse_component_point by (cbn; lia).
    cbn [set_component]. change (Z.of_nat 15 - 3 - 3 - 3) with 6.
    apply parse_fraction_six; assumption.
Qed.

Lemma unsigned_format_time h mi s us : unsigned_text (format_time h mi s us) = true.
Proof.
  unfold format_time. rewrite !unsigned_text_app, !unsigned_fixed_digits.
  destruct (us =? 0); [reflexivity|].
  rewrite unsigned_text_app, unsigned_fixed_digits. reflexivity.
Qed.

(** The offset [off] split into the fields [format_offset] prints. *)
Lemma offset_fields a :
  0 <= a < US_PER_DAY ->
  let hh := a / (3600 * US_PER_SECOND) in
  let mm := a mod (3600 * US_PER_SECOND) / (60 * US_PER_SECOND) in
  let ss := a mod (60 * US_PER_SECOND) / US_PER_SECOND in
  let us := a mod US_PER_SECOND in
  0 <= hh <= 23 /\ 0 <= mm <= 59 /\ 0 <= ss <= 59 /\ 0 <= us <= 999999
  /\ ((hh * 60 + mm) * 60 + ss) * US_PER_SECOND + us = a.
Proof.
  unfold US_PER_DAY, US_PER_SECOND. intros H. cbv zeta.
  change (3600 * 1000000) with 3600000000. change (60 * 1000000) with 60000000.
  Z.to_euclidean_division_equations. lia.
Qed.

Lemma length_format_offset_fields a :
  String.length (format_offset_fields a)
  = if (a mod (60 * US_PER_SECOND) / US_PER_SECOND =? 0) && (a mod US_PER_SECOND =? 0)
    then 5%nat
    else if a mod US_PER_SECOND =? 0 then 8%nat else 15%nat.
Proof.
  unfold format_offset_fields. cbv zeta.
  rewrite !length_append_s, !length_fixed_digits.
  destruct (_ && _); [reflexivity|].
  rewrite !length_append_s, !length_fixed_digits.
  destruct (_ =? 0); [reflexivity|].
  rewrite !length_append_s, !length_fixed_digits. reflexivity.
Qed.

(** The fields of an offset, as printed, read back to themselves. *)
Lemma parse_hh_mm_ss_ff_offset a :
  0 <= a < US_PER_DAY ->
  parse_hh_mm_ss_ff (format_offset_fields a)
                    (Z.of_nat (String.length (format_offset_fields a)))
  = Some (a / (3600 * US_PER_SECOND),
          a mod (3600 * US_PER_SECOND) / (60 * US_PER_SECOND),
          a mod (60 * US_PER_SECOND) / US_PER_SECOND,
          a mod US_PER_SECOND, false).
Proof.
  intros Ha. pose proof (offset_fields a Ha) as Hf. cbv zeta in Hf.
  rewrite length_format_offset_fields.
  unfold format_offset_fields.
  set (hh := a / (3600 * US_PER_SECOND)) in *.
  set (mm := a mod (3600 * US_PER_SECOND) / (60 * US_PER_SECOND)) in *.
  set (ss := a mod (60 * US_PER_SECOND) / US_PER_SECOND) in *.
  set (us := a mod US_PER_SECOND) in *.
  destruct Hf as (Hh & Hm & Hs & Hu & _).
  unfold parse_hh_mm_ss_ff.
  destruct (Z.eqb_spec ss 0) as [Hs0 | Hs0]; cbn [andb].
  - destruct (Z.eqb_spec us 0) as [Hu0 | Hu0].
    + rewrite Hs0, Hu0. cbn [append].
      rewrite parse_component_colon by (cbn; lia || reflexivity).
      rewrite parse_component_last by (cbn; lia). reflexivity.
    + cbn [append].
      rewrite parse_component_colon by (cbn; lia || reflexivity).
      rewrite parse_component_colon by (cbn; lia || reflexivity).
      rewrite parse_component_point by (cbn; lia).
      cbn [set_component].
      rewrite <- (append_nil_r_s (fixed_digits 6 us)).
      change (Z.of_nat 15 - 3 - 3 - 3) with 6.
      rewrite parse_fraction_six by (lia || reflexivity). reflexivity.
  - destruct (Z.eqb_spec us 0) as [Hu0 | Hu0].
    + rewrite Hu0. cbn [append].
      rewrite parse_component_colon by (cbn; lia || reflexivity).
      rewrite parse_component_colon by (cbn; lia || reflexivity).
      rewrite parse_component_last by (cbn; lia). reflexivity.
    + cbn [append].
      rewrite parse_component_colon by (cbn; lia || reflexivity).
      rewrite parse_component_colon by (cbn; lia || reflexivity).
      rewrite parse_component_point by (cbn; lia).
      cbn [set_component].
      rewrite <- (append_nil_r_s (fixed_digits 6 us)).
      change (Z.of_nat 15 - 3 - 3 - 3) with 6.
      rewrite parse_fraction_six by (lia || reflexivity). reflexivity.
Qed.

(** The zone of a printed offset is the offset. *)
Lemma tzinfo_of_offset off :
  check_utc_offset off = true -> readable_offset off ->
  let a := Z.abs off in
  let tzsign := if Ascii.eqb (offset_sign off) "-" then -1 else 1 in
  tzinfo_from_isoformat_results
    (Some (tzsign * (a / (3600 * US_PER_SECOND) * 3600
                     + a mod (3600 * US_PER_SECOND) / (60 * US_PER_SECOND) * 60
                     + a mod (60 * US_PER_SECOND) / US_PER_SECOND),
           tzsign * (a mod US_PER_SECOND)))
  = Ok (Some off).
Proof.
  intros Hoff Hread. apply check_utc_offset_spec in Hoff. cbv zeta.
  pose proof (offset_fields (Z.abs off) ltac:(lia)) as Hf. cbv zeta in Hf.
  set (hh := Z.abs off / (3600 * US_PER_SECOND)) in *.
  set (mm := Z.abs off mod (3600 * US_PER_SECOND) / (60 * US_PER_SECOND)) in *.
  set (ss := Z.abs off mod (60 * US_PER_SECOND) / US_PER_SECOND) in *.
  set (us := Z.abs off mod US_PER_SECOND) in *.
  destruct Hf as (Hh & Hm & Hs & Hu & Hsum).
  assert (Hsg : (if Ascii.eqb (offset_sign off) "-" then -1 else 1) * Z.abs off = off).
  { unfold offset_sign. destruct (Z.ltb_spec off 0); cbn [Ascii.eqb Bool.eqb]; lia. }
  set (sg := if Ascii.eqb (offset_sign off) "-" then -1 else 1) in *.
  assert (Hsg1 : sg = 1 \/ sg = -1).
  { subst sg. destruct (Ascii.eqb _ _); lia. }
  unfold tzinfo_from_isoformat_results, readable_offset, US_PER_SECOND in *.
  destruct (Z.eqb_spec (sg * (hh * 3600 + mm * 60 + ss)) 0) as [Hz | Hnz].
  - assert (off = 0) as -> by (apply Hread; nia). reflexivity.
  - replace (sg * (hh * 3600 + mm * 60 + ss) * 1000000 + sg * us) with off by nia.
    assert (Hc : check_utc_offset off = true) by (apply check_utc_offset_spec; exact Hoff).
    rewrite Hc. reflexivity.
Qed.

Lemma is_tz_char_offset_sign off :
  is_tz_char (offset_sign off) = true /\ Ascii.eqb (offset_sign off) "Z" = false
  /\ is_digit (offset_sign off) = false.
Proof. unfold offset_sign. destruct (off <? 0); repeat split; reflexivity. Qed.

(** The time part, as printed, reads back to its fields and zone. *)
Lemma parse_isoformat_time_format h mi s us tz :
  check_time_fields h mi s us = true ->
  match tz with
  | Some off => check_utc_offset off = true /\ readable_offset off
  | None => True
  end ->
  match parse_isoformat_time
          (format_time h mi s us
           ++ match tz with Some off => format_offset off | None => "" end) with
  | Some (h', mi', s', us', z) =>
      h' = h /\ mi' = mi /\ s' = s /\ us' = us /\ tzinfo_from_isoformat_results z = Ok tz
  | None => False
  end.
Proof.
  intros Ht Htz. apply check_time_fields_spec in Ht.
  unfold parse_isoformat_time.
  rewrite tz_position_app by apply unsigned_format_time.
  destruct tz as [off|].
  - destruct Htz as [Hoff Hread].
    destruct (is_tz_char_offset_sign off) as (Hsign & HZ & Hdig).
    unfold format_offset. cbn [tz_position]. rewrite Hsign, Nat.add_0_r.
    rewrite parse_hh_mm_ss_ff_format by (assumption || lia).
    rewrite skip_length_app. rewrite HZ.
    pose proof Hoff as Hr. apply check_utc_offset_spec in Hr.
    rewrite parse_hh_mm_ss_ff_offset by lia.
    repeat split. apply tzinfo_of_offset; assumption.
  - cbn [tz_position]. rewrite Nat.add_0_r.
    rewrite parse_hh_mm_ss_ff_format by (reflexivity || lia).
    rewrite skip_length_app. cbn. repeat split.
Qed.

Lemma check_date_fields_spec y m d :
  check_date_fields y m d = true <->
  1 <= y <= 9999 /\ 1 <= m <= 12 /\ 1 <= d <= days_in_month y m.
Proof.
  unfold check_date_fields, MINYEAR, MAXYEAR. rewrite !andb_true_iff, !Z.leb_le. tauto.
Qed.

Lemma days_in_month_le y m : days_in_month y m <= 31.
Proof.
  unfold days_in_month. destruct ((m =? 2) && is_leap y); [lia|].
  destruct m as [|p|p]; try (cbn; lia).
  do 4 (destruct p as [p|p|]; try (cbn; lia)).
Qed.

(** The first byte of a number printed in [w + 1] digits is a digit. *)
Lemma peek_fixed_digits w n rest :
  exists d, 0 <= d < 10 /\ peek (fixed_digits (S w) n ++ rest) = digit_char d.
Proof.
  exists (n / 10 ^ Z.of_nat w mod 10). split; [apply Z.mod_pos_bound; lia | reflexivity].
Qed.

(** The date, as printed, ends ten bytes in. *)
Lemma find_separator_format y m d rest :
  rest <> "" ->
  let s := (fixed_digits 4 y ++ "-" ++ fixed_digits 2 m ++ "-" ++ fixed_digits 2 d ++ rest)%string in
  find_isoformat_datetime_separator s (Z.of_nat (String.length s)) = 10
  /\ 10 < Z.of_nat (String.length s).
Proof.
  intros Hrest. cbv zeta.
  rewrite !length_append_s, !length_fixed_digits. cbn [String.length].
  assert (Hl : (0 < String.length rest)%nat) by (destruct rest; [congruence | cbn; lia]).
  split; [|lia].
  unfold find_isoformat_datetime_separator.
  destruct (Z.eqb_spec (Z.of_nat (4 + (1 + (2 + (1 + (2 + String.length rest)))))) 7); [lia|].
  cbn [append]. rewrite skip_digits_then, skip_digits_then_one. cbn [peek].
  change (Ascii.eqb "-" "-") with true. cbv iota.
  match goal with
  | |- context [peek (fixed_digits 2 m ++ ?X)] =>
      destruct (peek_fixed_digits 1 m X) as (k & Hk & ->)
  end.
  rewrite digit_char_not_W by assumption. reflexivity.
Qed.

Lemma parse_isoformat_date_format y m d rest len :
  check_date_fields y m d = true ->
  parse_isoformat_date
    (fixed_digits 4 y ++ "-" ++ fixed_digits 2 m ++ "-" ++ fixed_digits 2 d ++ rest) len
  = Some (y, m, d).
Proof.
  intros H. apply check_date_fields_spec in H. destruct H as (Hy & Hm & Hd).
  pose proof (days_in_month_le y m).
  unfold parse_isoformat_date.
  rewrite parse_digits_exact by (change (10 ^ Z.of_nat 4) with 10000; lia).
  cbn [append peek skip]. change (Ascii.eqb "-" "-") with true. cbv iota zeta.
  match goal with
  | |- context [peek (fixed_digits 2 m ++ ?X)] =>
      destruct (peek_fixed_digits 1 m X) as (k & Hk & ->)
  end.
  rewrite digit_char_not_W by assumption.
  rewrite parse_two_digits by lia. cbn [append peek skip andb negb].
  change (Ascii.eqb "-" "-") with true. cbn [negb].
  rewrite parse_two_digits by lia. reflexivity.
Qed.

(** Reading back what [isoformat] printed gives the datetime itself. *)
Lemma fromisoformat_isoformat d s :
  valid_datetime d = true ->
  match tzinfo d with Some off => readable_offset off | None => True end ->
  isoformat d = Ok s -> fromisoformat s = Ok d.
Proof.
  intros Hv Hread Hs. unfold valid_datetime in Hv. apply andb_true_iff in Hv.
  destruct Hv as [Hdate Htime].
  set (tzs := match tzinfo d with Some off => format_offset off | None => "" end).
  set (t := (format_time (hour d) (minute d) (second d) (microsecond d) ++ tzs)%string).
  assert (Htz : match tzinfo d with
                | Some off => check_utc_offset off = true /\ readable_offset off
                | None => True
                end
                /\ s = (fixed_digits 4 (year d) ++ "-" ++ fixed_digits 2 (month d) ++ "-"
                        ++ fixed_digits 2 (day d) ++ String "T" t)%string).
  { unfold isoformat, wall_text in Hs. subst t tzs. destruct (tzinfo d) as [off|].
    - destruct (check_utc_offset off) eqn:E; [|discriminate].
      injection Hs as <-. split; [split; [reflexivity | exact Hread]|].
      repeat (rewrite append_assoc_s; cbn [append]). reflexivity.
    - injection Hs as <-. split; [exact I|]. rewrite append_nil_r_s.
      repeat (rewrite append_assoc_s; cbn [append]). reflexivity. }
  destruct Htz as [Htz ->].
  unfold fromisoformat.
  destruct (find_separator_format (year d) (month d) (day d) (String "T" t)) as [Hsep Hlen];
    [discriminate|].
  cbv zeta in Hsep, Hlen. rewrite Hsep.
  destruct (Z.ltb_spec (Z.of_nat (String.length
     (fixed_digits 4 (year d) ++ "-" ++ fixed_digits 2 (month d) ++ "-"
      ++ fixed_digits 2 (day d) ++ String "T" t))) 7) as [Hlt | _]; [lia|].
  rewrite parse_isoformat_date_format by assumption.
  destruct (Z.ltb_spec 10 (Z.of_nat (String.length
     (fixed_digits 4 (year d) ++ "-" ++ fixed_digits 2 (month d) ++ "-"
      ++ fixed_digits 2 (day d) ++ String "T" t)))) as [_ | Hge]; [|lia].
  change (Z.to_nat 10) with 10%nat. rewrite skip_date. cbn [peek].
  change (utf8_width "T") with 1%nat. cbn [skip].
  pose proof (parse_isoformat_time_format (hour d) (minute d) (second d) (microsecond d)
                (tzinfo d) Htime Htz) as Hp.
  fold tzs in Hp. fold t in Hp.
  destruct (parse_isoformat_time t) as [[[[[h' mi'] s'] us'] z]|]; [|contradiction].
  destruct Hp as (-> & -> & -> & -> & Hz). rewrite Hz. cbn [rbind].
  unfold datetime_new. rewrite Hdate, Htime. cbn [andb]. destruct d; reflexivity.
Qed.

(** ** Datetime arithmetic *)

Lemma valid_datetime_spec d :
  valid_datetime d = true <->
  (1 <= year d <= 9999 /\ 1 <= month d <= 12 /\ 1 <= day d <= days_in_month (year d) (month d))
  /\ (0 <= hour d <= 23 /\ 0 <= minute d <= 59 /\ 0 <= second d <= 59
      /\ 0 <= microsecond d <= 999999).
Proof.
  unfold valid_datetime. rewrite andb_true_iff, check_date_fields_spec, check_time_fields_spec.
  tauto.
Qed.

(** Ordinals 1 .. MAXORDINAL are exactly the dates of years 1 .. 9999. *)
Lemma ord2ymd_year_iff n :
  1 <= n <= MAXORDINAL <-> 1 <= fst (fst (ord2ymd n)) <= 9999.
Proof.
  unfold MAXORDINAL.
  destruct (ord2ymd_decompose n) as (a & b & c & e & r & Hn0 & Hb & Hc & He & Hr & B1 & B2 & B3 & ->).
  destruct ((e =? 4) || (b =? 4)) eqn:E; [|destruct (month_day _ r)]; cbn [fst].
  - apply orb_true_iff in E. rewrite !Z.eqb_eq in E. lia.
  - apply orb_false_iff in E. rewrite !Z.eqb_neq in E. lia.
Qed.

Lemma ymd2ord_range y m d :
  valid_date y m d -> 1 <= y <= 9999 -> 1 <= ymd2ord y m d <= MAXORDINAL.
Proof.
  intros Hv Hy. apply ord2ymd_year_iff. rewrite ymd2ord_ord2ymd by assumption. exact Hy.
Qed.

Lemma naive_us_split d :
  naive_us d = toordinal d * US_PER_DAY + time_of_day_us d.
Proof. unfold naive_us, time_of_day_us, US_PER_DAY, US_PER_SECOND. lia. Qed.

Lemma time_of_day_range d :
  valid_datetime d = true -> 0 <= time_of_day_us d < US_PER_DAY.
Proof.
  intros H. apply valid_datetime_spec in H.
  unfold time_of_day_us, US_PER_DAY, US_PER_SECOND. lia.
Qed.

Lemma toordinal_range d :
  valid_datetime d = true -> 1 <= toordinal d <= MAXORDINAL.
Proof.
  intros H. apply valid_datetime_spec in H. apply ymd2ord_range; [split|]; tauto.
Qed.

(** The fields [datetime_add] computes from a microsecond count. *)
Lemma clock_fields N :
  let delta := timedelta_of_us N in
  let h := seconds delta / 3600 in
  let rem := seconds delta mod 3600 in
  0 <= h <= 23 /\ 0 <= rem / 60 <= 59 /\ 0 <= rem mod 60 <= 59
  /\ 0 <= microseconds delta <= 999999
  /\ ((h * 60 + rem / 60) * 60 + rem mod 60) * US_PER_SECOND + microseconds delta
     = N - days delta * US_PER_DAY.
Proof.
  unfold timedelta_of_us, US_PER_DAY, US_PER_SECOND. cbn [days seconds microseconds]. cbv zeta.
  Z.to_euclidean_division_equations. lia.
Qed.

Lemma datetime_add_spec d td r :
  datetime_add d td = Ok r ->
  naive_us r = naive_us d + total_us td /\ tzinfo r = tzinfo d /\ valid_datetime r = true.
Proof.
  unfold datetime_add. set (N := naive_us d + total_us td).
  pose proof (clock_fields N) as Hc. cbv zeta in Hc.
  set (delta := timedelta_of_us N) in *. clearbody delta.
  destruct ((0 <? days delta) && (days delta <=? MAXORDINAL)) eqn:Hr; [|discriminate].
  apply andb_true_iff in Hr. destruct Hr as [Hlo Hhi].
  apply Z.ltb_lt in Hlo. apply Z.leb_le in Hhi.
  pose proof (ord2ymd_ymd2ord (days delta)) as Hord.
  pose proof (proj1 (ord2ymd_year_iff (days delta)) ltac:(lia)) as Hyear.
  destruct (ord2ymd (days delta)) as [[y m] dd]. cbn [fst] in Hyear.
  intros H. injection H as <-.
  destruct Hord as (Hord & Hm & Hd). destruct Hc as (Hh & Hmi & Hs & Hus & Hsum).
  split; [|split]; [| reflexivity |].
  - rewrite naive_us_split. unfold toordinal, time_of_day_us.
    cbn [year month day hour minute second microsecond]. rewrite Hord. lia.
  - apply valid_datetime_spec. cbn [year month day hour minute second microsecond]. lia.
Qed.

Lemma datetime_add_ok d td :
  US_PER_DAY <= naive_us d + total_us td < (MAXORDINAL + 1) * US_PER_DAY ->
  exists r, datetime_add d td = Ok r.
Proof.
  intros H. unfold datetime_add.
  replace ((0 <? _) && _) with true.
  - destruct (ord2ymd _) as [[y m] dd]. eexists. reflexivity.
  - symmetry. apply andb_true_iff. rewrite Z.ltb_lt, Z.leb_le.
    unfold timedelta_of_us. cbn [days]. unfold US_PER_DAY, MAXORDINAL in *.
    Z.to_euclidean_division_equations. lia.
Qed.

Lemma datetime_add_overflow d td :
  ~ (US_PER_DAY <= naive_us d + total_us td < (MAXORDINAL + 1) * US_PER_DAY) ->
  datetime_add d td = Raise OverflowError.
Proof.
  intros H. unfold datetime_add.
  replace ((0 <? _) && _) with false; [reflexivity|].
  symmetry. apply andb_false_iff. rewrite Z.ltb_ge, Z.leb_gt.
  unfold timedelta_of_us. cbn [days]. unfold US_PER_DAY, MAXORDINAL in *.
  Z.to_euclidean_division_equations. lia.
Qed.

(** Two datetimes with the same wall time and zone are the same value. *)
Lemma datetime_ext d1 d2 :
  valid_datetime d1 = true -> valid_datetime d2 = true ->
  naive_us d1 = naive_us d2 -> tzinfo d1 = tzinfo d2 -> d1 = d2.
Proof.
  intros V1 V2 Hn Htz.
  pose proof (time_of_day_range d1 V1) as T1. pose proof (time_of_day_range d2 V2) as T2.
  rewrite !naive_us_split in Hn.
  destruct (radix_unique US_PER_DAY (toordinal d1) (toordinal d2)
              (time_of_day_us d1) (time_of_day_us d2)) as [Hord Htod]; [lia | lia | lia |].
  apply valid_datetime_spec in V1, V2.
  destruct V1 as ((Y1 & M1 & D1) & (H1 & MI1 & S1 & U1)).
  destruct V2 as ((Y2 & M2 & D2) & (H2 & MI2 & S2 & U2)).
  assert (Hymd : (year d1, month d1, day d1) = (year d2, month d2, day d2)).
  { rewrite <- (ymd2ord_ord2ymd (year d1) (month d1) (day d1)) by (split; assumption).
    rewrite <- (ymd2ord_ord2ymd (year d2) (month d2) (day d2)) by (split; assumption).
    unfold toordinal in Hord. rewrite Hord. reflexivity. }
  injection Hymd as Ey Em Ed.
  unfold time_of_day_us, US_PER_SECOND in Htod.
  assert (hour d1 = hour d2 /\ minute d1 = minute d2 /\ second d1 = second d2
          /\ microsecond d1 = microsecond d2) as (Eh & Emi & Es & Eu) by lia.
  destruct d1, d2. cbn in *. congruence.
Qed.

Lemma total_us_of_us us : total_us (timedelta_of_us us) = us.
Proof.
  unfold total_us, timedelta_of_us, US_PER_DAY, US_PER_SECOND.
  cbn [days seconds microseconds]. Z.to_euclidean_division_equations. lia.
Qed.

(** Adding nothing changes nothing. *)
Lemma datetime_add_zero d :
  valid_datetime d = true -> datetime_add d (timedelta_of_us 0) = Ok d.
Proof.
  intros V.
  destruct (datetime_add_ok d (timedelta_of_us 0)) as [r Hr].
  { rewrite total_us_of_us, naive_us_split.
    pose proof (toordinal_range d V). pose proof (time_of_day_range d V).
    unfold US_PER_DAY, MAXORDINAL in *. lia. }
  rewrite Hr. f_equal.
  destruct (datetime_add_spec _ _ _ Hr) as (Hn & Htz & Hv).
  rewrite total_us_of_us in Hn. apply datetime_ext; [assumption | assumption | lia | assumption].
Qed.

(** ** Dictionaries *)

Lemma dict_get_set_same {V : Type} k (v : V) d : dict_get k (dict_set k v d) = Some v.
Proof.
  induction d as [|[k' v'] d IH]; cbn [dict_set dict_get].
  - now rewrite String.eqb_refl.
  - destruct (String.eqb_spec k' k) as [E | E]; cbn [dict_get].
    + subst. now rewrite String.eqb_refl.
    + apply String.eqb_neq in E. now rewrite E.
Qed.

Lemma dict_get_set_other {V : Type} k k' (v : V) d :
  k' <> k -> dict_get k' (dict_set k v d) = dict_get k' d.
Proof.
  intros Hne. assert (Hkk : (k =? k')%string = false) by (apply String.eqb_neq; congruence).
  induction d as [|[k0 v0] d IH]; cbn [dict_set dict_get].
  - now rewrite Hkk.
  - destruct (String.eqb_spec k0 k) as [E | E]; cbn [dict_get].
    + subst k0. now rewrite Hkk.
    + destruct (k0 =? k')%string; [reflexivity | exact IH].
Qed.

(** The timestamp a row ends up with. *)
Lemma localize_entry_validdate z entry :
  dict_get "validdate" (localize_entry z entry)
  = Some match dict_get "validdate" entry with
         | Some v => if truthy v then convert_validdate z v else PyNone
         | None => PyNone
         end.
Proof.
  unfold localize_entry.
  destruct (dict_get "validdate" entry) as [v|]; [destruct (truthy v)|];
    apply dict_get_set_same.
Qed.

(** Every other field of a row is left alone. *)
Lemma localize_entry_other z entry k :
  k <> "validdate" -> dict_get k (localize_entry z entry) = dict_get k entry.
Proof.
  intros Hk. unfold localize_entry.
  destruct (dict_get "validdate" entry) as [v|]; [destruct (truthy v)|];
    now apply dict_get_set_other.
Qed.


(** ** Localizing one timestamp *)

Lemma datetime_new_valid y m d h mi s us tz r :
  datetime_new y m d h mi s us tz = Ok r -> valid_datetime r = true.
Proof.
  unfold datetime_new, valid_datetime.
  destruct (check_date_fields y m d && check_time_fields h mi s us) eqn:E; [|discriminate].
  intros H. injection H as <-. exact E.
Qed.

Lemma fromisoformat_valid s d : fromisoformat s = Ok d -> valid_datetime d = true.
Proof.
  unfold fromisoformat.
  destruct (_ <? 7); [discriminate|].
  destruct (parse_isoformat_date _ _) as [[[y m] dd]|]; [|discriminate].
  destruct (_ <? _); [|apply datetime_new_valid].
  destruct (parse_isoformat_time _) as [[[[[hh mm] ss] ff] tz]|]; [|discriminate].
  destruct (tzinfo_from_isoformat_results tz) as [tzinfo|e]; [|discriminate].
  apply datetime_new_valid.
Qed.

Lemma valid_replace_tzinfo d tz :
  valid_datetime (replace_tzinfo d tz) = valid_datetime d.
Proof. reflexivity. Qed.

Lemma naive_us_replace_tzinfo d tz : naive_us (replace_tzinfo d tz) = naive_us d.
Proof. unfold naive_us, toordinal. reflexivity. Qed.

(** Subtracting an offset of zero changes nothing. *)
Lemma datetime_sub_zero u :
  valid_datetime u = true -> datetime_add u (timedelta_of_us (- 0)) = Ok u.
Proof. intros V. exact (datetime_add_zero u V). Qed.

(** Converting from UTC starts by subtracting an offset of zero. *)
Lemma astimezone_from_utc u z :
  valid_datetime u = true -> tzinfo u = Some 0 -> astimezone u z = fromutc z u.
Proof.
  intros V Htz. unfold astimezone. rewrite Htz. rewrite datetime_sub_zero by exact V.
  reflexivity.
Qed.

Lemma astimezone_utc d z :
  valid_datetime d = true ->
  astimezone (replace_tzinfo d timezone_utc) z = fromutc z (replace_tzinfo d timezone_utc).
Proof. intros V. apply astimezone_from_utc; [exact V | reflexivity]. Qed.

Lemma datetime_add_in_range d td r :
  datetime_add d td = Ok r -> representable (naive_us d + total_us td).
Proof.
  intros H. unfold representable.
  destruct (Z_le_dec US_PER_DAY (naive_us d + total_us td)) as [H1 | H1];
    [destruct (Z_lt_dec (naive_us d + total_us td) ((MAXORDINAL + 1) * US_PER_DAY))
       as [H2 | H2]; [split; assumption|]|];
    exfalso;
    assert (E : datetime_add d td = Raise OverflowError)
      by (apply datetime_add_overflow; intros [? ?]; contradiction);
    congruence.
Qed.

Lemma fromutc_spec z u l :
  fromutc z u = Ok l ->
  naive_us l = naive_us u + z (naive_us u) * US_PER_SECOND
  /\ tzinfo l = Some (z (naive_us u) * US_PER_SECOND)
  /\ valid_datetime l = true
  /\ representable (naive_us u + z (naive_us u) * US_PER_SECOND).
Proof.
  unfold fromutc.
  destruct (datetime_add u _) as [local|e] eqn:Hadd; [|discriminate].
  cbn [rbind]. intros H. injection H as <-.
  destruct (datetime_add_spec _ _ _ Hadd) as (Hn & _ & Hv).
  pose proof (datetime_add_in_range _ _ _ Hadd) as Hr.
  rewrite total_us_of_us in Hn, Hr.
  rewrite naive_us_replace_tzinfo, valid_replace_tzinfo.
  split; [assumption|]. split; [reflexivity|]. split; assumption.
Qed.

(** A converted timestamp that is a string came out of the three steps. *)
Lemma convert_validdate_str z v s' :
  convert_validdate z v = PyStr s' ->
  exists s d l,
    v = PyStr s /\ fromisoformat s = Ok d
    /\ fromutc z (replace_tzinfo d timezone_utc) = Ok l /\ isoformat l = Ok s'.
Proof.
  unfold convert_validdate. destruct v as [|s|x|b]; cbn [fromisoformat_value rbind];
    try discriminate.
  destruct (fromisoformat s) as [d|e] eqn:Hp; cbn [rbind]; [|discriminate].
  rewrite astimezone_utc by (eapply fromisoformat_valid; eassumption).
  destruct (fromutc z _) as [l|e] eqn:Hl; cbn [rbind]; [|discriminate].
  destruct (isoformat l) as [t|e] eqn:Hi; [|discriminate].
  intros H. injection H as <-. exists s, d, l. repeat split; assumption.
Qed.

(** The outcome of a conversion is [None] or a string, nothing else. *)
Lemma convert_validdate_cases z v :
  convert_validdate z v = PyNone \/ exists s', convert_validdate z v = PyStr s'.
Proof.
  unfold convert_validdate.
  destruct (_ <- fromisoformat_value v ;; _) as [s|e]; [right; eexists|left]; reflexivity.
Qed.

(** Reading a converted timestamp back gives the original wall time, taken
    as UTC, together with the offset of the zone at that time. *)
Lemma convert_roundtrip z s d s' :
  fromisoformat s = Ok d ->
  convert_validdate z (PyStr s) = PyStr s' ->
  exists d',
    fromisoformat s' = Ok d'
    /\ tzinfo d' = Some (z (naive_us d) * US_PER_SECOND)
    /\ naive_us d' = naive_us d + z (naive_us d) * US_PER_SECOND
    /\ instant d' = naive_us d.
Proof.
  intros Hp Hc.
  destruct (convert_validdate_str _ _ _ Hc) as (s0 & d0 & l & Hs & Hp0 & Hl & Hi).
  injection Hs as <-. rewrite Hp in Hp0. injection Hp0 as <-.
  destruct (fromutc_spec _ _ _ Hl) as (Hn & Htz & Hv & _).
  rewrite naive_us_replace_tzinfo in Hn, Htz.
  exists l. split.
  { apply fromisoformat_isoformat; [assumption | | assumption].
    rewrite Htz. unfold readable_offset, US_PER_SECOND. lia. }
  split; [assumption|]. split; [assumption|].
  unfold instant. rewrite Htz. lia.
Qed.

(** A conversion goes through whenever the local wall time is one a
    datetime can hold and the offset is less than a day. *)
Lemma convert_succeeds z s d :
  fromisoformat s = Ok d ->
  valid_offset (z (naive_us d)) ->
  representable (naive_us d + z (naive_us d) * US_PER_SECOND) ->
  exists s', convert_validdate z (PyStr s) = PyStr s'.
Proof.
  intros Hp Hoff Hrep. unfold convert_validdate. cbn [fromisoformat_value].
  rewrite Hp. cbn [rbind].
  rewrite astimezone_utc by (eapply fromisoformat_valid; eassumption).
  unfold fromutc. rewrite naive_us_replace_tzinfo.
  destruct (datetime_add_ok (replace_tzinfo d timezone_utc)
              (timedelta_of_us (z (naive_us d) * US_PER_SECOND))) as [l Hl].
  { rewrite total_us_of_us, naive_us_replace_tzinfo. exact Hrep. }
  rewrite Hl. cbn [rbind]. unfold isoformat. cbn [replace_tzinfo tzinfo].
  replace (check_utc_offset _) with true; [eexists; reflexivity|].
  symmetry. apply check_utc_offset_spec.
  unfold valid_offset in Hoff. unfold US_PER_DAY, US_PER_SECOND. lia.
Qed.

(** A conversion that gave a string had an offset below a day and a local
    wall time within the calendar. *)
Lemma convert_validdate_needs z s d s' :
  fromisoformat s = Ok d ->
  convert_validdate z (PyStr s) = PyStr s' ->
  valid_offset (z (naive_us d))
  /\ representable (naive_us d + z (naive_us d) * US_PER_SECOND).
Proof.
  intros Hp Hc.
  destruct (convert_validdate_str _ _ _ Hc) as (s0 & d0 & l & Hs & Hp0 & Hl & Hi).
  injection Hs as <-. rewrite Hp in Hp0. injection Hp0 as <-.
  destruct (fromutc_spec _ _ _ Hl) as (_ & Htz & _ & Hrep).
  rewrite naive_us_replace_tzinfo in Htz, Hrep.
  split; [|exact Hrep].
  unfold isoformat in Hi. rewrite Htz in Hi.
  destruct (check_utc_offset _) eqn:E; [|discriminate].
  apply check_utc_offset_spec in E. unfold valid_offset.
  unfold US_PER_DAY, US_PER_SECOND in E. lia.
Qed.

(** What a conversion gave, when it gave a string: the ISO-8601 text of
    the datetime that denotes the instant of the wall time read as UTC,
    with the offset of the zone; the text reads back as that datetime. *)
Lemma convert_validdate_text z s d s' :
  fromisoformat s = Ok d ->
  convert_validdate z (PyStr s) = PyStr s' ->
  exists l,
    isoformat l = Ok s' /\ fromisoformat s' = Ok l
    /\ valid_datetime l = true
    /\ tzinfo l = Some (z (naive_us d) * US_PER_SECOND)
    /\ instant l = naive_us d.
Proof.
  intros Hp Hc.
  destruct (convert_validdate_str _ _ _ Hc) as (s0 & d0 & l & Hs & Hp0 & Hl & Hi).
  injection Hs as <-. rewrite Hp in Hp0. injection Hp0 as <-.
  destruct (fromutc_spec _ _ _ Hl) as (Hn & Htz & Hv & _).
  rewrite naive_us_replace_tzinfo in Hn, Htz.
  exists l. split; [exact Hi|]. split.
  { apply fromisoformat_isoformat; [assumption | | assumption].
    rewrite Htz. unfold readable_offset, US_PER_SECOND. lia. }
  split; [assumption|]. split; [assumption|].
  unfold instant. rewrite Htz. lia.
Qed.

(** Conversion to [pytz.UTC] keeps the wall time and writes the offset. *)
Lemma convert_utc s d :
  fromisoformat s = Ok d ->
  convert_validdate pytz_UTC (PyStr s) = PyStr (wall_text d ++ "+00:00").
Proof.
  intros Hp. pose proof (fromisoformat_valid _ _ Hp) as V.
  unfold convert_validdate. cbn [fromisoformat_value]. rewrite Hp. cbn [rbind].
  rewrite astimezone_utc by assumption.
  unfold fromutc, pytz_UTC. cbn [Z.mul].
  rewrite datetime_add_zero by (rewrite valid_replace_tzinfo; exact V).
  cbn [rbind]. reflexivity.
Qed.

(** ** The forecast window *)

Lemma last_day_fields d :
  valid_datetime d = true -> toordinal d = MAXORDINAL ->
  (year d, month d, day d) = (9999, 12, 31).
Proof.
  intros V H. apply valid_datetime_spec in V. destruct V as ((Hy & Hm & Hd) & _).
  rewrite <- (ymd2ord_ord2ymd (year d) (month d) (day d)) by (split; assumption).
  unfold toordinal in H. rewrite H. reflexivity.
Qed.

Lemma time_window_spec now :
  valid_datetime now = true ->
  (year now, month now, day now) <> (9999, 12, 31) ->
  exists enddate,
    time_window now
    = Ok (mk_datetime (year now) (month now) (day now) (hour now) 0 0 0 timezone_utc,
          enddate, mk_timedelta 0 3600 0)
    /\ datetime_diff enddate
         (mk_datetime (year now) (month now) (day now) (hour now) 0 0 0 timezone_utc)
       = Ok (mk_timedelta 1 0 0).
Proof.
  intros V Hlast.
  set (startdate := mk_datetime (year now) (month now) (day now) (hour now) 0 0 0 timezone_utc).
  assert (Vs : valid_datetime startdate = true).
  { apply valid_datetime_spec in V. apply valid_datetime_spec.
    subst startdate. cbn [year month day hour minute second microsecond]. lia. }
  assert (Hord : toordinal startdate < MAXORDINAL).
  { pose proof (toordinal_range now V) as Hr.
    assert (toordinal now <> MAXORDINAL) by (intros E; apply Hlast, last_day_fields; assumption).
    change (toordinal startdate) with (toordinal now). lia. }
  pose proof (toordinal_range _ Vs) as Hr. pose proof (time_of_day_range _ Vs) as Ht.
  assert (Hday : total_us (timedelta_new 1 0 0 0 0) = US_PER_DAY) by reflexivity.
  destruct (datetime_add_ok startdate (timedelta_new 1 0 0 0 0)) as [enddate He].
  { rewrite Hday, naive_us_split. unfold US_PER_DAY, MAXORDINAL in *. lia. }
  exists enddate. unfold time_window.
  change (replace_time (replace_tzinfo now timezone_utc) 0 0 0) with startdate.
  rewrite He. cbn [rbind]. split; [reflexivity|].
  destruct (datetime_add_spec _ _ _ He) as (Hn & Htz & _).
  unfold datetime_diff. rewrite Htz. cbn [startdate tzinfo timezone_utc].
  rewrite Hn, Hday. f_equal.
  replace (naive_us startdate + US_PER_DAY - naive_us startdate + 0 - 0) with US_PER_DAY by lia.
  reflexivity.
Qed.

Lemma time_window_overflow now :
  valid_datetime now = true ->
  (year now, month now, day now) = (9999, 12, 31) ->
  time_window now = Raise OverflowError.
Proof.
  intros V Hlast. injection Hlast as Hy Hm Hd.
  unfold time_window.
  rewrite datetime_add_overflow; [reflexivity|].
  apply valid_datetime_spec in V.
  rewrite naive_us_split. unfold toordinal, time_of_day_us.
  cbn [replace_time replace_tzinfo year month day hour minute second microsecond].
  rewrite Hy, Hm, Hd.
  change (total_us (timedelta_new 1 0 0 0 0)) with US_PER_DAY.
  change (ymd2ord 9999 12 31) with MAXORDINAL.
  unfold US_PER_DAY, US_PER_SECOND, MAXORDINAL. lia.
Qed.

(** ** The handlers, step by step *)

Lemma float_of_str_error s e : float_of_str s = Raise e -> e = ValueError.
Proof.
  unfold float_of_str. cbv zeta.
  destruct (match strip _ with [] => _ | _ :: _ => _ end) as [negative mag].
  destruct (_ || _); [discriminate|].
  destruct (_ =? _)%string; [discriminate|].
  destruct (float_magnitude mag) as [[m x]|]; [discriminate|].
  intros H. injection H as <-. reflexivity.
Qed.

Lemma resolve_city_eq city : resolve_city city = Ok (cities_get city bloomington).
Proof. reflexivity. Qed.

Lemma local_zone_eq w name : local_zone w name = Ok (zone_of w name).
Proof.
  unfold local_zone, zone_of, pytz_timezone.
  destruct (_ =? _)%string; [reflexivity|].
  destruct (tzdb w name); reflexivity.
Qed.

Lemma lookup_timezone_eq w c :
  lookup_timezone w c
  = ([TimezoneAt (snd c) (fst c)],
     match timezone_at w (snd c) (fst c) with
     | Ok found => Continue (timezone_name found)
     | Raise e => Fail e
     end).
Proof.
  unfold lookup_timezone, timezone_name, perform, hbind, lift, ret.
  destruct (timezone_at w (snd c) (fst c)) as [[[|x s]|]|e]; reflexivity.
Qed.

(** Whatever [resolve_input] goes on with is one coordinate, found without
    any outside call, and the zone is looked up for that same coordinate. *)
Lemma resolve_input_shape city lat lon t coords :
  resolve_input city lat lon = (t, Continue coords) ->
  t = [] /\ exists c, coords = [c] /\ zone_coordinate city coords = Ok c.
Proof.
  unfold resolve_input, zone_coordinate.
  destruct (opt_truthy city) eqn:Hc.
  - rewrite resolve_city_eq. cbn. intros H. injection H as <- <-.
    split; [reflexivity|]. eexists. split; reflexivity.
  - destruct (opt_truthy lat && opt_truthy lon); [|discriminate].
    unfold resolve_coordinates.
    destruct (la <- float_of_arg lat;; lo <- float_of_arg lon;; Ok (la, lo)) as [c|e].
    + cbn. intros H. injection H as <- <-. split; [reflexivity|].
      exists c. split; reflexivity.
    + destruct e; discriminate.
Qed.

(** The whole handler, once the input is resolved, the window computed and
    the provider has answered: the zone is looked up, and the request ends
    with the exception of the lookup or with the rows, localized. *)
Lemma get_weather_after_fetch g w city lat lon c win rows :
  resolve_input city lat lon = ([], Continue [c]) ->
  time_window (utcnow w) = Ok win ->
  provider w (weather_query g [c] win) = inr rows ->
  get_weather g w city lat lon
  = ([QueryTimeSeries (weather_query g [c] win); TimezoneAt (snd c) (fst c)],
     match timezone_at w (snd c) (fst c) with
     | Ok found =>
         Responded (mk_response 200
           (WeatherBody (map (localize_entry (zone_of w (timezone_name found))) rows)
                        (timezone_name found)))
     | Raise e => Unhandled e
     end).
Proof.
  intros Hin Hwin Hrows.
  destruct (resolve_input_shape _ _ _ _ _ Hin) as (_ & c' & Hc' & Hz).
  injection Hc' as <-.
  unfold get_weather. rewrite Hin, Hwin. destruct win as [[s e] i].
  unfold fetch. cbn [hbind lift ret perform app]. unfold weather_query in Hrows.
  rewrite Hrows, Hz. cbn [hbind lift ret perform app].
  rewrite lookup_timezone_eq.
  destruct (timezone_at w (snd c) (fst c)) as [found|err]; [|reflexivity].
  cbn [hbind lift ret perform app]. rewrite local_zone_eq. reflexivity.
Qed.

(** The same, for a lookup that returned. *)
Lemma get_weather_success g w city lat lon c win rows found :
  resolve_input city lat lon = ([], Continue [c]) ->
  time_window (utcnow w) = Ok win ->
  provider w (weather_query g [c] win) = inr rows ->
  timezone_at w (snd c) (fst c) = Ok found ->
  get_weather g w city lat lon
  = ([QueryTimeSeries (weather_query g [c] win); TimezoneAt (snd c) (fst c)],
     Responded (mk_response 200
       (WeatherBody (map (localize_entry (zone_of w (timezone_name found))) rows)
                    (timezone_name found)))).
Proof.
  intros Hin Hwin Hrows Hat.
  rewrite (get_weather_after_fetch _ _ _ _ _ _ _ _ Hin Hwin Hrows), Hat. reflexivity.
Qed.

(** A provider failure ends the request at once. *)
Lemma get_weather_provider_error g w city lat lon c win msg :
  resolve_input city lat lon = ([], Continue [c]) ->
  time_window (utcnow w) = Ok win ->
  provider w (weather_query g [c] win) = inl msg ->
  get_weather g w city lat lon
  = ([QueryTimeSeries (weather_query g [c] win)],
     Responded (mk_response 500 (ErrorBody msg))).
Proof.
  intros Hin Hwin Hrows.
  unfold get_weather. rewrite Hin, Hwin. destruct win as [[s e] i].
  unfold fetch. cbn [hbind lift ret perform app]. unfold weather_query in Hrows.
  rewrite Hrows. reflexivity.
Qed.

(** An early reply of [resolve_input] is the whole answer. *)
Lemma get_weather_early_reply g w city lat lon t r :
  resolve_input city lat lon = (t, Return r) ->
  get_weather g w city lat lon = (t, Responded r).
Proof. intros H. unfold get_weather. rewrite H. reflexivity. Qed.

(* ================================================================== *)
(** * Part V. Properties of the handlers                                *)
(* ================================================================== *)

(** ** Start-up *)

(** C1 (the code departs from the claim).  The claim: missing credentials
    are not looked at when the process starts, so routes that never fetch
    a forecast are served all the same.  The code: lines 20-21 evaluate
    [os.getenv.getenv(..)]; the function [os.getenv] has no attribute
    [getenv], the import raises [AttributeError] whatever the environment
    holds, and no request is served. *)
Theorem C1_import_fails_in_every_environment (env : environ) (w : World) (r : request) :
  module_init env = Raise (AttributeError "function" "getenv")
  /\ serve env w r = ImportFailed (AttributeError "function" "getenv").
Proof. split; reflexivity. Qed.

(** ** Zone fallback *)

(** A zone name pytz does not know is converted with [pytz.UTC] and
    returned as it is: whenever the lookup gives such a name, the rows are
    localized as UTC and the response carries the name, which is not
    [UTC]. *)
Lemma unknown_zone_keeps_its_name g w city lat lon c win rows name :
  resolve_input city lat lon = ([], Continue [c]) ->
  time_window (utcnow w) = Ok win ->
  provider w (weather_query g [c] win) = inr rows ->
  timezone_at w (snd c) (fst c) = Ok (Some name) -> name <> "" ->
  pytz_timezone (tzdb w) name = Raise (UnknownTimeZoneError name) ->
  get_weather g w city lat lon
  = ([QueryTimeSeries (weather_query g [c] win); TimezoneAt (snd c) (fst c)],
     Responded (mk_response 200 (WeatherBody (map (localize_entry pytz_UTC) rows) name)))
  /\ name <> "UTC".
Proof.
  intros Hin Hwin Hrows Hat Hne Hun.
  rewrite (get_weather_success _ _ _ _ _ _ _ _ _ Hin Hwin Hrows Hat).
  assert (Hn : timezone_name (Some name) = name)
    by (destruct name; [contradiction | reflexivity]).
  rewrite Hn. unfold zone_of. rewrite Hun.
  split; [reflexivity|]. intros ->. discriminate Hun.
Qed.

(** C2 (the code departs from the claim).  The claim: an identifier that
    pytz does not know makes the pipeline fall back to UTC, readings and
    [timezone] field alike.  The code: line 134 replaces the zone object
    only; [timezone_str] keeps the unknown name and line 155 returns it.
    Here the lookup names [Europe/Kyiv], which the sample database lacks:
    the rows are converted to UTC and labelled [Europe/Kyiv]. *)
Theorem C2_unknown_zone_is_returned_by_name :
  pytz_timezone sample_tzdb "Europe/Kyiv" = Raise (UnknownTimeZoneError "Europe/Kyiv")
  /\ exists calls,
       get_weather no_credentials (sample_world sample_clock (Some "Europe/Kyiv"))
                   (Some "Chicago") None None
       = (calls,
          Responded (mk_response 200
            (WeatherBody
               [ [("validdate", PyStr "2024-06-01T12:00:00+00:00");
                  ("t_2m:C", PyFloat (decimal 215 1))];
                 [("validdate", PyNone); ("t_2m:C", PyFloat (decimal 220 1))];
                 [("t_2m:C", PyFloat (decimal 225 1)); ("validdate", PyNone)] ]
               "Europe/Kyiv"))).
Proof. split; [reflexivity|]. eexists. vm_compute. reflexivity. Qed.

(** ** Input resolution *)

(** C3, as stated, fails: a [city] argument that is present and empty does
    not select the registry; the coordinates are used. *)
Lemma C3_present_but_empty_city :
  resolve_input_by_presence (Some "") (Some "1") (Some "2")
  = ([], Continue [bloomington])
  /\ resolve_input (Some "") (Some "1") (Some "2")
     = ([], Continue [(decimal 1 0, decimal 2 0)])
  /\ resolve_input (Some "") (Some "1") (Some "2")
     <> resolve_input_by_presence (Some "") (Some "1") (Some "2").
Proof.
  split; [reflexivity|]. split; [vm_compute; reflexivity|].
  vm_compute. discriminate.
Qed.

(** C3 (amended).  Resolution goes by truth value, first match wins: a
    non-empty [city] selects the registry and [lat]/[lon] are ignored;
    otherwise non-empty [lat] and [lon] select the coordinate branch;
    otherwise the answer is 400 and nothing outside is called. *)
Theorem C3_input_resolution g w city lat lon :
  (opt_truthy city = true ->
     resolve_input city lat lon = ([], Continue [cities_get city bloomington])
     /\ get_weather g w city lat lon = get_weather g w city None None)
  /\ (opt_truthy city = false -> opt_truthy lat && opt_truthy lon = true ->
      resolve_input city lat lon = resolve_coordinates lat lon)
  /\ (opt_truthy city = false -> opt_truthy lat && opt_truthy lon = false ->
      get_weather g w city lat lon
      = ([], Responded (mk_response 400 (ErrorBody "City or coordinates required")))).
Proof.
  split; [|split].
  - intros Hc. split.
    + unfold resolve_input. rewrite Hc. reflexivity.
    + unfold get_weather, resolve_input, zone_coordinate. rewrite Hc. reflexivity.
  - intros Hc Hl. unfold resolve_input. rewrite Hc, Hl. reflexivity.
  - intros Hc Hl. apply get_weather_early_reply.
    unfold resolve_input. rewrite Hc, Hl. reflexivity.
Qed.

Lemma C3_input_resolution_witness :
  (resolve_input (Some "Chicago") (Some "1") (Some "2")
   = ([], Continue [cities_get (Some "Chicago") bloomington])
   /\ get_weather no_credentials (sample_world sample_clock None) (Some "Chicago") (Some "1") (Some "2")
      = get_weather no_credentials (sample_world sample_clock None) (Some "Chicago") None None)
  /\ resolve_input None (Some "1") (Some "2") = resolve_coordinates (Some "1") (Some "2")
  /\ get_weather no_credentials (sample_world sample_clock None) None (Some "1") None
     = ([], Responded (mk_response 400 (ErrorBody "City or coordinates required"))).
Proof.
  destruct (C3_input_resolution no_credentials (sample_world sample_clock None)
              (Some "Chicago") (Some "1") (Some "2")) as (H1 & _ & _).
  destruct (C3_input_resolution no_credentials (sample_world sample_clock None)
              None (Some "1") (Some "2")) as (_ & H2 & _).
  destruct (C3_input_resolution no_credentials (sample_world sample_clock None)
              None (Some "1") None) as (_ & _ & H3).
  split; [apply H1; reflexivity|].
  split; [apply H2; reflexivity | apply H3; reflexivity].
Defined.

(** C4.  A registered name resolves to its stored coordinate, any other
    name to Bloomington's, and no name raises; a request for an unknown
    city is answered with Bloomington's forecast and Bloomington's zone:
    the provider is asked about Bloomington, the zone is looked up for
    Bloomington, and what the lookup returns names the zone of the 200
    response (a lookup that raises ends the request with its exception). *)
Theorem C4_city_resolution g w name lat lon win rows :
  (forall c, dict_get name cities = Some c -> resolve_city (Some name) = Ok c)
  /\ (dict_get name cities = None -> resolve_city (Some name) = Ok bloomington)
  /\ (name <> "" -> dict_get name cities = None ->
      time_window (utcnow w) = Ok win ->
      provider w (weather_query g [bloomington] win) = inr rows ->
      get_weather g w (Some name) lat lon
      = ([QueryTimeSeries (weather_query g [bloomington] win);
          TimezoneAt (snd bloomington) (fst bloomington)],
         match timezone_at w (snd bloomington) (fst bloomington) with
         | Ok found =>
             Responded (mk_response 200
               (WeatherBody
                  (map (localize_entry (zone_of w (timezone_name found))) rows)
                  (timezone_name found)))
         | Raise e => Unhandled e
         end)).
Proof.
  split; [|split].
  - intros c Hc. rewrite resolve_city_eq. cbn [cities_get]. rewrite Hc. reflexivity.
  - intros Hc. rewrite resolve_city_eq. cbn [cities_get]. rewrite Hc. reflexivity.
  - intros Hne Hc Hwin Hrows. apply get_weather_after_fetch; [|assumption|assumption].
    unfold resolve_input. destruct name as [|x s]; [contradiction|].
    cbn [opt_truthy str_truthy]. rewrite resolve_city_eq. cbn [cities_get].
    rewrite Hc. reflexivity.
Qed.

Lemma C4_city_resolution_witness :
  resolve_city (Some "Chicago") = Ok (decimal 418781 4, decimal (-876298) 4)
  /\ resolve_city (Some "Atlantis") = Ok bloomington
  /\ exists q,
       get_weather no_credentials (sample_world sample_clock (Some "America/Chicago"))
                   (Some "Atlantis") None None
       = ([QueryTimeSeries q; TimezoneAt (snd bloomington) (fst bloomington)],
          Responded (mk_response 200
            (WeatherBody (map (localize_entry six_hours_west) sample_rows)
                         "America/Chicago"))).
Proof.
  split; [|split].
  - apply (C4_city_resolution no_credentials (sample_world sample_clock None)
             "Chicago" None None
             (sample_clock, sample_clock, mk_timedelta 0 0 0) []). reflexivity.
  - apply (C4_city_resolution no_credentials (sample_world sample_clock None)
             "Atlantis" None None
             (sample_clock, sample_clock, mk_timedelta 0 0 0) []). reflexivity.
  - eexists.
    refine (proj2 (proj2 (C4_city_resolution no_credentials
              (sample_world sample_clock (Some "America/Chicago")) "Atlantis" None None
              _ sample_rows)) _ _ _ _).
    + discriminate.
    + reflexivity.
    + vm_compute. reflexivity.
    + reflexivity.
Defined.

(** C5.  Two arguments that [float] accepts resolve to exactly the pair of
    their values; if [float] refuses either one, resolution replies 400
    with the payload below.  A request reaches this resolution when it has
    no non-empty [city] and both arguments are non-empty, and a refusal
    then is the whole answer: nothing outside is called. *)
Theorem C5_coordinate_resolution g w city lat lon :
  (forall la lo, float_of_str lat = Ok la -> float_of_str lon = Ok lo ->
     resolve_coordinates (Some lat) (Some lon) = ([], Continue [(la, lo)]))
  /\ ((exists e, float_of_str lat = Raise e) \/ (exists e, float_of_str lon = Raise e) ->
      resolve_coordinates (Some lat) (Some lon)
      = ([], Return (mk_response 400 (ErrorBody "Invalid latitude or longitude"))))
  /\ (opt_truthy city = false -> str_truthy lat && str_truthy lon = true ->
      resolve_input city (Some lat) (Some lon) = resolve_coordinates (Some lat) (Some lon)
      /\ ((exists e, float_of_str lat = Raise e) \/ (exists e, float_of_str lon = Raise e) ->
          get_weather g w city (Some lat) (Some lon)
          = ([], Responded (mk_response 400 (ErrorBody "Invalid latitude or longitude"))))).
Proof.
  assert (Hbad : (exists e, float_of_str lat = Raise e) \/ (exists e, float_of_str lon = Raise e) ->
                 resolve_coordinates (Some lat) (Some lon)
                 = ([], Return (mk_response 400 (ErrorBody "Invalid latitude or longitude")))).
  { intros Hbad. unfold resolve_coordinates. cbn [float_of_arg].
    destruct Hbad as [[e He] | [e He]].
    - rewrite He. rewrite (float_of_str_error _ _ He). reflexivity.
    - rewrite He. rewrite (float_of_str_error _ _ He).
      destruct (float_of_str lat) as [la|e'] eqn:Hla; [reflexivity|].
      rewrite (float_of_str_error _ _ Hla). reflexivity. }
  split; [|split; [exact Hbad|]].
  - intros la lo Hla Hlo. unfold resolve_coordinates. cbn [float_of_arg].
    rewrite Hla, Hlo. reflexivity.
  - intros Hc Hl.
    assert (Hin : resolve_input city (Some lat) (Some lon)
                  = resolve_coordinates (Some lat) (Some lon)).
    { unfold resolve_input. rewrite Hc. cbn [opt_truthy]. rewrite Hl. reflexivity. }
    split; [exact Hin|]. intros H. apply get_weather_early_reply.
    rewrite Hin. apply Hbad. exact H.
Qed.

Lemma C5_coordinate_resolution_witness :
  resolve_coordinates (Some "39.5") (Some "-86")
  = ([], Continue [(decimal 395 1, decimal (-86) 0)])
  /\ resolve_coordinates (Some "") (Some "10")
     = ([], Return (mk_response 400 (ErrorBody "Invalid latitude or longitude")))
  /\ get_weather no_credentials (sample_world sample_clock None) None (Some "abc") (Some "10")
     = ([], Responded (mk_response 400 (ErrorBody "Invalid latitude or longitude"))).
Proof.
  split; [|split].
  - apply (C5_coordinate_resolution no_credentials (sample_world sample_clock None)
             None "39.5" "-86"); vm_compute; reflexivity.
  - apply (C5_coordinate_resolution no_credentials (sample_world sample_clock None)
             None "" "10").
    left. exists ValueError. vm_compute. reflexivity.
  - apply (C5_coordinate_resolution no_credentials (sample_world sample_clock None)
             None "abc" "10"); [reflexivity | reflexivity |].
    left. exists ValueError. vm_compute. reflexivity.
Defined.

(** ** Localization of the rows *)

(** What the loop body stores is what [localized_as] describes. *)
Lemma localized_as_convert z old :
  localized_as z old
    match old with
    | Some v => if truthy v then convert_validdate z v else PyNone
    | None => PyNone
    end.
Proof.
  unfold localized_as. destruct old as [[|s|x|b]|]; try reflexivity.
  - destruct (fromisoformat s) as [d|e] eqn:Hp.
    + assert (Hs : truthy (PyStr s) = true) by (destruct s; [discriminate Hp | reflexivity]).
      rewrite Hs. cbv zeta. split.
      * intros [Hoff Hrep].
        destruct (convert_succeeds z s d Hp Hoff Hrep) as [s' Hs'].
        destruct (convert_validdate_text _ _ _ _ Hp Hs') as (l & Hi & Hr & Hv & Htz & Hin).
        exists l, s'. repeat split; assumption.
      * intros Hnot.
        destruct (convert_validdate_cases z (PyStr s)) as [Hn | [s' Hs']]; [exact Hn|].
        exfalso. apply Hnot. eapply convert_validdate_needs; eassumption.
    + destruct (truthy (PyStr s)); [|reflexivity].
      unfold convert_validdate. cbn [fromisoformat_value]. rewrite Hp. reflexivity.
  - destruct (truthy (PyFloat x)); reflexivity.
  - destruct (truthy (PyObject b)); reflexivity.
Qed.

(** C6.  Once the provider has answered and the zone lookup has returned,
    the response is 200 and carries one row per row fetched, in order, under
    the zone name the lookup settled on.  In row [n] of the answer the
    [validdate] is that of row [n] of the batch, localized in that zone: a
    string that parses is read as UTC, moved to the zone and written out
    again in ISO-8601 with the zone's offset, so that it reads back as the
    same instant; a field that is missing or empty, that holds no string,
    that does not parse or has no local time within the calendar, becomes
    [None].  Every other field of the row is as it was.  No row makes the
    request fail or touches another row. *)
Theorem C6_rows_are_localized_one_by_one g w city lat lon c win rows found :
  resolve_input city lat lon = ([], Continue [c]) ->
  time_window (utcnow w) = Ok win ->
  provider w (weather_query g [c] win) = inr rows ->
  timezone_at w (snd c) (fst c) = Ok found ->
  exists rows',
    get_weather g w city lat lon
    = ([QueryTimeSeries (weather_query g [c] win); TimezoneAt (snd c) (fst c)],
       Responded (mk_response 200 (WeatherBody rows' (timezone_name found))))
    /\ List.length rows' = List.length rows
    /\ forall n entry, nth_error rows n = Some entry ->
         exists entry' new,
           nth_error rows' n = Some entry'
           /\ dict_get "validdate" entry' = Some new
           /\ localized_as (zone_of w (timezone_name found))
                           (dict_get "validdate" entry) new
           /\ (forall k, k <> "validdate" -> dict_get k entry' = dict_get k entry).
Proof.
  intros Hin Hwin Hrows Hat.
  eexists. split; [apply get_weather_success; eassumption|].
  split; [apply length_map|].
  intros n entry Hn. eexists _, _. split; [apply map_nth_error; exact Hn|].
  split; [apply localize_entry_validdate|].
  split; [apply localized_as_convert|].
  intros k Hk. apply localize_entry_other. exact Hk.
Qed.

Lemma C6_rows_are_localized_one_by_one_witness :
  exists c win rows',
    get_weather no_credentials (sample_world sample_clock (Some "America/Chicago"))
                (Some "Chicago") None None
    = ([QueryTimeSeries (weather_query no_credentials [c] win); TimezoneAt (snd c) (fst c)],
       Responded (mk_response 200 (WeatherBody rows' "America/Chicago")))
    /\ List.length rows' = List.length sample_rows
    /\ forall n entry, nth_error sample_rows n = Some entry ->
         exists entry' new,
           nth_error rows' n = Some entry'
           /\ dict_get "validdate" entry' = Some new
           /\ localized_as six_hours_west (dict_get "validdate" entry) new
           /\ (forall k, k <> "validdate" -> dict_get k entry' = dict_get k entry).
Proof.
  eexists _, _.
  refine (C6_rows_are_localized_one_by_one no_credentials
            (sample_world sample_clock (Some "America/Chicago"))
            (Some "Chicago") None None _ _ sample_rows (Some "America/Chicago") _ _ _ _).
  - reflexivity.
  - vm_compute. reflexivity.
  - reflexivity.
  - vm_compute. reflexivity.
Defined.

(** The rows of the sample, localized six hours west: the first is moved
    from 12:00 UTC to 06:00 at -06:00, the second does not parse, the third
    has no timestamp. *)
Lemma sample_rows_six_hours_west :
  map (localize_entry six_hours_west) sample_rows
  = [ [("validdate", PyStr "2024-06-01T06:00:00-06:00");
       ("t_2m:C", PyFloat (decimal 215 1))];
      [("validdate", PyNone); ("t_2m:C", PyFloat (decimal 220 1))];
      [("t_2m:C", PyFloat (decimal 225 1)); ("validdate", PyNone)] ].
Proof. vm_compute. reflexivity. Qed.

(** ** The forecast window *)

(** C7, as stated, fails on the last day a datetime can hold: adding a day
    to the start of the window raises [OverflowError], and the request
    ends without a response. *)
Lemma C7_no_window_on_the_last_day :
  valid_datetime last_day = true
  /\ time_window last_day = Raise OverflowError
  /\ get_weather no_credentials (sample_world last_day None) (Some "Chicago") None None
     = ([], Unhandled OverflowError).
Proof. repeat split; vm_compute; reflexivity. Qed.

(** C7 (amended).  For every clock reading before 9999-12-31 the window
    starts at that reading in UTC with minute, second and microsecond set
    to zero, ends exactly one day (24 hours) later, and has a step of one
    hour. *)
Theorem C7_time_window now :
  valid_datetime now = true ->
  (year now, month now, day now) <> (9999, 12, 31) ->
  exists startdate enddate interval,
    time_window now = Ok (startdate, enddate, interval)
    /\ startdate
       = mk_datetime (year now) (month now) (day now) (hour now) 0 0 0 timezone_utc
    /\ datetime_diff enddate startdate = Ok (mk_timedelta 1 0 0)
    /\ total_us (mk_timedelta 1 0 0) = 24 * 3600 * US_PER_SECOND
    /\ interval = mk_timedelta 0 3600 0.
Proof.
  intros V Hlast. destruct (time_window_spec now V Hlast) as (enddate & Hw & Hd).
  eexists _, enddate, _. split; [exact Hw|]. repeat split. exact Hd.
Qed.

Lemma C7_time_window_witness :
  exists startdate enddate interval,
    time_window sample_clock = Ok (startdate, enddate, interval)
    /\ startdate = mk_datetime 2024 6 1 11 0 0 0 timezone_utc
    /\ datetime_diff enddate startdate = Ok (mk_timedelta 1 0 0)
    /\ total_us (mk_timedelta 1 0 0) = 24 * 3600 * US_PER_SECOND
    /\ interval = mk_timedelta 0 3600 0.
Proof.
  apply (C7_time_window sample_clock); [reflexivity | discriminate].
Defined.

(** ** Round trip *)

(** C8, as stated, fails at the edge of the calendar: midnight of
    0001-01-01 UTC has no local time six hours west, the conversion raises
    and the timestamp becomes [None]: no string is left to read back. *)
Lemma C8_no_local_time_before_year_one :
  fromisoformat "0001-01-01T00:00:00" = Ok (mk_datetime 1 1 1 0 0 0 0 None)
  /\ convert_validdate six_hours_west (PyStr "0001-01-01T00:00:00") = PyNone.
Proof. split; vm_compute; reflexivity. Qed.

(** C8 (amended).  For a timestamp that parses and carries no offset or
    the offset zero, and any zone: if the zone's offset is below a day and
    the local wall time lies within years 1..9999, the localized string
    reads back as the same instant; otherwise the timestamp becomes [None].
    Conversion to UTC always goes through and keeps the wall time, so an
    ISO string in UTC comes back as itself, the offset written out. *)
Theorem C8_localize_then_reparse z s d :
  fromisoformat s = Ok d ->
  tzinfo d = None \/ tzinfo d = Some 0 ->
  (valid_offset (z (naive_us d)) ->
   representable (naive_us d + z (naive_us d) * US_PER_SECOND) ->
   exists s' d',
     convert_validdate z (PyStr s) = PyStr s'
     /\ fromisoformat s' = Ok d' /\ instant d' = instant d)
  /\ (~ (valid_offset (z (naive_us d))
         /\ representable (naive_us d + z (naive_us d) * US_PER_SECOND)) ->
      convert_validdate z (PyStr s) = PyNone)
  /\ convert_validdate pytz_UTC (PyStr s) = PyStr (wall_text d ++ "+00:00")
  /\ (isoformat d = Ok s ->
      convert_validdate pytz_UTC (PyStr s)
      = PyStr match tzinfo d with None => s ++ "+00:00" | Some _ => s end).
Proof.
  intros Hp Hutc.
  assert (Hinst : instant d = naive_us d).
  { unfold instant. destruct Hutc as [-> | ->]; lia. }
  split; [|split; [|split]].
  - intros Hoff Hrep.
    destruct (convert_succeeds z s d Hp Hoff Hrep) as [s' Hs'].
    destruct (convert_roundtrip _ _ _ _ Hp Hs') as (d' & Hp' & _ & _ & Hi).
    exists s', d'. repeat split; [assumption | assumption | congruence].
  - intros Hnot.
    destruct (convert_validdate_cases z (PyStr s)) as [Hn | [s' Hs']]; [exact Hn|].
    exfalso. apply Hnot. eapply convert_validdate_needs; eassumption.
  - apply convert_utc. exact Hp.
  - intros Hi. rewrite (convert_utc _ _ Hp). f_equal.
    unfold isoformat in Hi. destruct Hutc as [Ht | Ht]; rewrite Ht in *.
    + injection Hi as <-. reflexivity.
    + cbn in Hi. injection Hi as <-. reflexivity.
Qed.

Lemma C8_localize_then_reparse_witness :
  (exists s' d',
     convert_validdate six_hours_west (PyStr "2024-06-01T12:00:00") = PyStr s'
     /\ fromisoformat s' = Ok d'
     /\ instant d' = instant (mk_datetime 2024 6 1 12 0 0 0 None))
  /\ convert_validdate pytz_UTC (PyStr "2024-06-01T12:00:00")
     = PyStr (wall_text (mk_datetime 2024 6 1 12 0 0 0 None) ++ "+00:00")
  /\ convert_validdate pytz_UTC (PyStr "2024-06-01T12:00:00")
     = PyStr ("2024-06-01T12:00:00" ++ "+00:00").
Proof.
  assert (Hp : fromisoformat "2024-06-01T12:00:00" = Ok (mk_datetime 2024 6 1 12 0 0 0 None))
    by (vm_compute; reflexivity).
  destruct (C8_localize_then_reparse six_hours_west "2024-06-01T12:00:00"
              (mk_datetime 2024 6 1 12 0 0 0 None) Hp (or_introl eq_refl))
    as (H1 & _ & H3 & H4).
  split; [|split].
  - apply H1.
    + unfold valid_offset, six_hours_west. lia.
    + unfold representable. vm_compute. split; [discriminate | reflexivity].
  - exact H3.
  - apply H4. vm_compute. reflexivity.
Defined.

(** ** Coordinates *)

Lemma registry_in_range name c : dict_get name cities = Some c -> in_range c = true.
Proof.
  unfold cities. cbn [dict_get].
  repeat (destruct (_ =? name)%string;
          [intros H; injection H as <-; vm_compute; reflexivity|]).
  discriminate.
Qed.

(** C9, as stated, fails: a latitude of 91 is accepted and sent to the
    provider. *)
Lemma C9_latitude_91_is_submitted :
  in_range (decimal 91 0, decimal 0 0) = false
  /\ exists q rest,
       fst (get_weather no_credentials (sample_world sample_clock None)
                        None (Some "91") (Some "0"))
       = QueryTimeSeries q :: rest
       /\ q_coordinates q = [(decimal 91 0, decimal 0 0)].
Proof.
  split; [vm_compute; reflexivity|].
  eexists _, _. split; vm_compute; reflexivity.
Qed.

(** C9 (amended).  Every coordinate the city branch resolves to lies within
    latitude [-90, 90] and longitude [-180, 180].  A coordinate built from
    the client's [lat] and [lon] is not checked: whatever the two strings
    parse to is what the provider is asked about. *)
Theorem C9_registry_in_range_client_input_unchecked g w city lat lon :
  (forall c, resolve_city city = Ok c -> in_range c = true)
  /\ (forall la lo win,
        opt_truthy city = false -> str_truthy lat && str_truthy lon = true ->
        float_of_str lat = Ok la -> float_of_str lon = Ok lo ->
        time_window (utcnow w) = Ok win ->
        exists rest o,
          get_weather g w city (Some lat) (Some lon)
          = (QueryTimeSeries (weather_query g [(la, lo)] win) :: rest, o)).
Proof.
  split.
  - intros c. rewrite resolve_city_eq. intros H. injection H as <-.
    unfold cities_get. destruct city as [name|]; [|vm_compute; reflexivity].
    destruct (dict_get name cities) as [c|] eqn:E; [|vm_compute; reflexivity].
    eapply registry_in_range. exact E.
  - intros la lo win Hc Hl Hla Hlo Hwin.
    assert (Hin : resolve_input city (Some lat) (Some lon) = ([], Continue [(la, lo)])).
    { unfold resolve_input. rewrite Hc. cbn [opt_truthy]. rewrite Hl.
      unfold resolve_coordinates. cbn [float_of_arg]. rewrite Hla, Hlo. reflexivity. }
    destruct (provider w (weather_query g [(la, lo)] win)) as [msg | rows] eqn:Hp.
    + eexists _, _. eapply get_weather_provider_error; eassumption.
    + eexists _, _. eapply get_weather_after_fetch; eassumption.
Qed.

Lemma C9_registry_in_range_client_input_unchecked_witness :
  in_range (decimal 418781 4, decimal (-876298) 4) = true
  /\ exists win rest o,
       get_weather no_credentials (sample_world sample_clock None) None (Some "91") (Some "0")
       = (QueryTimeSeries (weather_query no_credentials [(decimal 91 0, decimal 0 0)] win)
            :: rest, o).
Proof.
  split.
  - apply (proj1 (C9_registry_in_range_client_input_unchecked no_credentials
                    (sample_world sample_clock None) (Some "Chicago") "" "")).
    reflexivity.
  - eexists.
    refine (proj2 (C9_registry_in_range_client_input_unchecked no_credentials
                     (sample_world sample_clock None) None "91" "0") _ _ _ _ _ _ _ _).
    + reflexivity.
    + reflexivity.
    + vm_compute. reflexivity.
    + vm_compute. reflexivity.
    + vm_compute. reflexivity.
Defined.

(** ** The offset inside a timestamp *)

(** C10.  The offset written in a [validdate] plays no part: two
    timestamps with the same wall time convert alike, and what comes out
    denotes the instant of the input moved by the input's own offset.  For
    12:00 at +05:00 the output is 12:00 at +00:00, five hours later. *)
Theorem C10_embedded_offset_is_discarded :
  (forall z s1 s2 d1 d2,
     fromisoformat s1 = Ok d1 -> fromisoformat s2 = Ok d2 ->
     replace_tzinfo d1 None = replace_tzinfo d2 None ->
     convert_validdate z (PyStr s1) = convert_validdate z (PyStr s2))
  /\ (forall z s d off s' d',
        fromisoformat s = Ok d -> tzinfo d = Some off ->
        convert_validdate z (PyStr s) = PyStr s' -> fromisoformat s' = Ok d' ->
        instant d' = instant d + off)
  /\ exists d d',
       fromisoformat "2024-01-01T12:00:00+05:00" = Ok d
       /\ tzinfo d = Some (5 * 3600 * US_PER_SECOND)
       /\ convert_validdate pytz_UTC (PyStr "2024-01-01T12:00:00+05:00")
          = PyStr "2024-01-01T12:00:00+00:00"
       /\ fromisoformat "2024-01-01T12:00:00+00:00" = Ok d'
       /\ instant d' <> instant d.
Proof.
  split; [|split].
  - intros z s1 s2 d1 d2 H1 H2 Hw. unfold convert_validdate. cbn [fromisoformat_value].
    rewrite H1, H2. cbn [rbind].
    replace (replace_tzinfo d1 timezone_utc) with (replace_tzinfo d2 timezone_utc);
      [reflexivity|].
    unfold replace_tzinfo in *. injection Hw as -> -> -> -> -> -> ->. reflexivity.
  - intros z s d off s' d' Hp Htz Hc Hp'.
    destruct (convert_roundtrip _ _ _ _ Hp Hc) as (d'' & Hp'' & _ & _ & Hi).
    rewrite Hp' in Hp''. injection Hp'' as <-.
    unfold instant at 2. rewrite Htz. lia.
  - eexists _, _. split; [vm_compute; reflexivity|].
    split; [reflexivity|]. split; [vm_compute; reflexivity|].
    split; [vm_compute; reflexivity|]. vm_compute. discriminate.
Qed.

(** ** Every way the weather handler can end *)

(** [resolve_input] calls nothing and either replies 400 or goes on with
    one coordinate. *)
Lemma resolve_input_cases city lat lon :
  (exists msg, resolve_input city lat lon = ([], Return (mk_response 400 (ErrorBody msg))))
  \/ (exists c, resolve_input city lat lon = ([], Continue [c])).
Proof.
  unfold resolve_input. destruct (opt_truthy city).
  - right. rewrite resolve_city_eq. eexists. reflexivity.
  - destruct (opt_truthy lat && opt_truthy lon) eqn:Hl; [|left; eexists; reflexivity].
    apply andb_true_iff in Hl. destruct Hl as [Hlat Hlon].
    destruct lat as [lat|]; [|discriminate]. destruct lon as [lon|]; [|discriminate].
    unfold resolve_coordinates. cbn [float_of_arg].
    destruct (float_of_str lat) as [la|e] eqn:Hla; cbn [rbind].
    + destruct (float_of_str lon) as [lo|e] eqn:Hlo; cbn [rbind].
      * right. eexists. reflexivity.
      * rewrite (float_of_str_error _ _ Hlo). left. eexists. reflexivity.
    + rewrite (float_of_str_error _ _ Hla). left. eexists. reflexivity.
Qed.

Lemma last_day_dec d :
  {(year d, month d, day d) = (9999, 12, 31)} + {(year d, month d, day d) <> (9999, 12, 31)}.
Proof.
  destruct (Z.eq_dec (year d) 9999) as [-> | H]; [|right; congruence].
  destruct (Z.eq_dec (month d) 12) as [-> | H]; [|right; congruence].
  destruct (Z.eq_dec (day d) 31) as [-> | H]; [left; reflexivity | right; congruence].
Qed.

(** The ways a weather request ends, with the calls made in each. *)
Lemma get_weather_cases g w city lat lon :
  (exists msg,
     resolve_input city lat lon = ([], Return (mk_response 400 (ErrorBody msg)))
     /\ get_weather g w city lat lon = ([], Responded (mk_response 400 (ErrorBody msg))))
  \/ (exists c e,
        resolve_input city lat lon = ([], Continue [c])
        /\ time_window (utcnow w) = Raise e
        /\ get_weather g w city lat lon = ([], Unhandled e))
  \/ (exists c win msg,
        resolve_input city lat lon = ([], Continue [c])
        /\ time_window (utcnow w) = Ok win
        /\ provider w (weather_query g [c] win) = inl msg
        /\ get_weather g w city lat lon
           = ([QueryTimeSeries (weather_query g [c] win)],
              Responded (mk_response 500 (ErrorBody msg))))
  \/ (exists c win rows,
        resolve_input city lat lon = ([], Continue [c])
        /\ time_window (utcnow w) = Ok win
        /\ provider w (weather_query g [c] win) = inr rows
        /\ get_weather g w city lat lon
           = ([QueryTimeSeries (weather_query g [c] win); TimezoneAt (snd c) (fst c)],
              match timezone_at w (snd c) (fst c) with
              | Ok found =>
                  Responded (mk_response 200
                    (WeatherBody
                       (map (localize_entry (zone_of w (timezone_name found))) rows)
                       (timezone_name found)))
              | Raise e => Unhandled e
              end)).
Proof.
  destruct (resolve_input_cases city lat lon) as [[msg Hin] | [c Hin]].
  { left. exists msg. split; [exact Hin|]. apply get_weather_early_reply. exact Hin. }
  right. destruct (time_window (utcnow w)) as [win | e] eqn:Hwin.
  2:{ left. exists c, e. split; [exact Hin|]. split; [reflexivity|].
      unfold get_weather. rewrite Hin, Hwin. reflexivity. }
  right.
  destruct (provider w (weather_query g [c] win)) as [msg | rows] eqn:Hp.
  - left. exists c, win, msg. split; [exact Hin|]. split; [reflexivity|]. split; [exact Hp|].
    eapply get_weather_provider_error; eassumption.
  - right. exists c, win, rows. split; [exact Hin|]. split; [reflexivity|]. split; [exact Hp|].
    eapply get_weather_after_fetch; eassumption.
Qed.

(** With a clock a datetime can hold, the window fails on the last day
    only, and then with [OverflowError]. *)
Lemma time_window_error now e :
  valid_datetime now = true -> time_window now = Raise e ->
  e = OverflowError /\ (year now, month now, day now) = (9999, 12, 31).
Proof.
  intros V H. destruct (last_day_dec now) as [Hlast | Hlast].
  - rewrite (time_window_overflow _ V Hlast) in H. injection H as <-. split; [reflexivity|exact Hlast].
  - destruct (time_window_spec _ V Hlast) as (enddate & Hw & _). rewrite Hw in H. discriminate H.
Qed.

(* ================================================================== *)
(** * Part VI. Further properties of the handlers                       *)
(* ================================================================== *)

(** X1.  A weather request ends in exactly one of five ways: 400 having
    called nothing; 500 with the provider's own message after one provider
    call and no zone lookup; 200 after one provider call followed by one
    zone lookup for the coordinate that was queried, under the zone name
    settled on for what the lookup returned and with as many rows as the
    provider gave; the exception of the zone lookup, uncaught, after the
    same two calls; or, on 9999-12-31 only, an uncaught [OverflowError]
    having called nothing. *)
Theorem X1_weather_request_outcomes g w city lat lon :
  valid_datetime (utcnow w) = true ->
  let calls := fst (get_weather g w city lat lon) in
  match snd (get_weather g w city lat lon) with
  | Responded r =>
      (status r = 400 /\ calls = [] /\ exists msg, body r = ErrorBody msg)
      \/ (status r = 500
          /\ exists q msg,
               calls = [QueryTimeSeries q] /\ provider w q = inl msg
               /\ body r = ErrorBody msg)
      \/ (status r = 200
          /\ exists q c rows found data,
               calls = [QueryTimeSeries q; TimezoneAt (snd c) (fst c)]
               /\ q_coordinates q = [c] /\ provider w q = inr rows
               /\ timezone_at w (snd c) (fst c) = Ok found
               /\ body r = WeatherBody data (timezone_name found)
               /\ List.length data = List.length rows)
  | Unhandled e =>
      (e = OverflowError /\ calls = []
       /\ (year (utcnow w), month (utcnow w), day (utcnow w)) = (9999, 12, 31))
      \/ (exists q c rows,
            calls = [QueryTimeSeries q; TimezoneAt (snd c) (fst c)]
            /\ q_coordinates q = [c] /\ provider w q = inr rows
            /\ timezone_at w (snd c) (fst c) = Raise e)
  end.
Proof.
  intros V. cbv zeta.
  destruct (get_weather_cases g w city lat lon)
    as [(msg & _ & ->) | [(c & e & _ & Hw & ->) | [(c & win & msg & _ & _ & Hp & ->)
       | (c & win & rows & _ & _ & Hp & ->)]]]; cbn [fst snd].
  - left. repeat split. exists msg. reflexivity.
  - left. destruct (time_window_error _ _ V Hw) as [-> Hlast]. repeat split. exact Hlast.
  - right. left. split; [reflexivity|]. exists (weather_query g [c] win), msg.
    repeat split. exact Hp.
  - assert (Hq : q_coordinates (weather_query g [c] win) = [c])
      by (destruct win as [[? ?] ?]; reflexivity).
    destruct (timezone_at w (snd c) (fst c)) as [found|e] eqn:Hat.
    + right. right. split; [reflexivity|].
      exists (weather_query g [c] win), c, rows, found. eexists.
      split; [reflexivity|]. split; [exact Hq|]. split; [exact Hp|].
      split; [exact Hat|]. split; [reflexivity|]. apply length_map.
    + right. exists (weather_query g [c] win), c, rows.
      split; [reflexivity|]. split; [exact Hq|]. split; [exact Hp | exact Hat].
Qed.

Lemma X1_weather_request_outcomes_witness :
  let calls := fst (get_weather no_credentials (sample_world sample_clock None)
                                 None (Some "91") (Some "0")) in
  match snd (get_weather no_credentials (sample_world sample_clock None)
                         None (Some "91") (Some "0")) with
  | Responded r =>
      (status r = 400 /\ calls = [] /\ exists msg, body r = ErrorBody msg)
      \/ (status r = 500
          /\ exists q msg,
               calls = [QueryTimeSeries q]
               /\ provider (sample_world sample_clock None) q = inl msg
               /\ body r = ErrorBody msg)
      \/ (status r = 200
          /\ exists q c rows found data,
               calls = [QueryTimeSeries q; TimezoneAt (snd c) (fst c)]
               /\ q_coordinates q = [c]
               /\ provider (sample_world sample_clock None) q = inr rows
               /\ timezone_at (sample_world sample_clock None) (snd c) (fst c) = Ok found
               /\ body r = WeatherBody data (timezone_name found)
               /\ List.length data = List.length rows)
  | Unhandled e =>
      (e = OverflowError /\ calls = []
       /\ (year (utcnow (sample_world sample_clock None)),
           month (utcnow (sample_world sample_clock None)),
           day (utcnow (sample_world sample_clock None))) = (9999, 12, 31))
      \/ (exists q c rows,
            calls = [QueryTimeSeries q; TimezoneAt (snd c) (fst c)]
            /\ q_coordinates q = [c]
            /\ provider (sample_world sample_clock None) q = inr rows
            /\ timezone_at (sample_world sample_clock None) (snd c) (fst c) = Raise e)
  end.
Proof.
  apply (X1_weather_request_outcomes no_credentials (sample_world sample_clock None)
           None (Some "91") (Some "0")).
  reflexivity.
Defined.

(** A latitude of 91 with the sample lookup, which refuses it as
    timezonefinder does: the provider is asked, the lookup raises, and the
    request ends without a response. *)
Lemma latitude_91_ends_in_the_lookup :
  exists q,
    get_weather no_credentials (sample_world sample_clock None) None (Some "91") (Some "0")
    = ([QueryTimeSeries q; TimezoneAt (decimal 0 0) (decimal 91 0)], Unhandled ValueError).
Proof. eexists. vm_compute. reflexivity. Qed.

(** X2.  Whatever the request, a provider query asks for exactly one
    coordinate, the five fixed parameters and the model [mix], with the
    credentials read at start-up passed on untouched, a step of one hour,
    a start on the hour in UTC and an end one day after the start. *)
Theorem X2_provider_query_shape g w city lat lon q :
  valid_datetime (utcnow w) = true ->
  In (QueryTimeSeries q) (fst (get_weather g w city lat lon)) ->
  (exists c, q_coordinates q = [c])
  /\ q_parameters q = parameters /\ q_model q = "mix"
  /\ q_username q = username g /\ q_password q = password g
  /\ q_interval q = mk_timedelta 0 3600 0
  /\ q_startdate q
     = mk_datetime (year (utcnow w)) (month (utcnow w)) (day (utcnow w))
                   (hour (utcnow w)) 0 0 0 timezone_utc
  /\ datetime_diff (q_enddate q) (q_startdate q) = Ok (mk_timedelta 1 0 0).
Proof.
  intros V Hin.
  assert (Hq : exists c win, time_window (utcnow w) = Ok win /\ q = weather_query g [c] win).
  { destruct (get_weather_cases g w city lat lon)
      as [(msg & _ & H) | [(c & e & _ & _ & H) | [(c & win & msg & _ & Hw & _ & H)
         | (c & win & rows & _ & Hw & _ & H)]]]; rewrite H in Hin; cbn [fst In] in Hin.
    - contradiction.
    - contradiction.
    - destruct Hin as [Hin | []]. injection Hin as <-. exists c, win. split; [exact Hw|reflexivity].
    - destruct Hin as [Hin | [Hin | []]]; [|discriminate Hin].
      injection Hin as <-. exists c, win. split; [exact Hw|reflexivity]. }
  destruct Hq as (c & win & Hw & ->).
  assert (Hlast : (year (utcnow w), month (utcnow w), day (utcnow w)) <> (9999, 12, 31)).
  { intros E. rewrite (time_window_overflow _ V E) in Hw. discriminate Hw. }
  destruct (time_window_spec _ V Hlast) as (enddate & Hw' & Hd).
  rewrite Hw' in Hw. injection Hw as <-.
  cbn [weather_query q_coordinates q_parameters q_model q_username q_password q_interval
       q_startdate q_enddate].
  split; [exists c; reflexivity|]. repeat split. exact Hd.
Qed.

Lemma X2_provider_query_shape_witness :
  exists q,
    In (QueryTimeSeries q)
       (fst (get_weather (mk_globals (Some "user") (Some "secret"))
                         (sample_world sample_clock None) None (Some "10") (Some "20")))
    /\ (exists c, q_coordinates q = [c])
    /\ q_parameters q = parameters /\ q_model q = "mix"
    /\ q_username q = Some "user" /\ q_password q = Some "secret"
    /\ q_interval q = mk_timedelta 0 3600 0
    /\ q_startdate q = mk_datetime 2024 6 1 11 0 0 0 timezone_utc
    /\ datetime_diff (q_enddate q) (q_startdate q) = Ok (mk_timedelta 1 0 0).
Proof.
  eexists. split.
  - vm_compute. left. reflexivity.
  - apply (X2_provider_query_shape (mk_globals (Some "user") (Some "secret"))
             (sample_world sample_clock None) None (Some "10") (Some "20")).
    + reflexivity.
    + vm_compute. left. reflexivity.
Defined.

(** X3.  When the geographic lookup finds nothing ([None] or an empty
    name), the response names the zone [UTC], and every timestamp that
    parses comes back as the same wall time followed by [+00:00]. *)
Theorem X3_empty_lookup_falls_back_to_utc g w city lat lon c win rows :
  resolve_input city lat lon = ([], Continue [c]) ->
  time_window (utcnow w) = Ok win ->
  provider w (weather_query g [c] win) = inr rows ->
  timezone_at w (snd c) (fst c) = Ok None \/ timezone_at w (snd c) (fst c) = Ok (Some "") ->
  snd (get_weather g w city lat lon)
  = Responded (mk_response 200 (WeatherBody (map (localize_entry pytz_UTC) rows) "UTC"))
  /\ forall entry s d,
       dict_get "validdate" entry = Some (PyStr s) -> fromisoformat s = Ok d ->
       dict_get "validdate" (localize_entry pytz_UTC entry)
       = Some (PyStr (wall_text d ++ "+00:00")).
Proof.
  intros Hin Hwin Hrows Hat. split.
  - rewrite (get_weather_after_fetch _ _ _ _ _ _ _ _ Hin Hwin Hrows). cbn [snd].
    destruct Hat as [-> | ->]; reflexivity.
  - intros entry s d Hv Hp. rewrite localize_entry_validdate, Hv.
    assert (Hs : truthy (PyStr s) = true).
    { destruct s; [discriminate Hp | reflexivity]. }
    rewrite Hs, (convert_utc _ _ Hp). reflexivity.
Qed.

Lemma X3_empty_lookup_falls_back_to_utc_witness :
  snd (get_weather no_credentials (sample_world sample_clock (Some ""))
                   (Some "Chicago") None None)
  = Responded (mk_response 200
      (WeatherBody (map (localize_entry pytz_UTC) sample_rows) "UTC")).
Proof.
  refine (proj1 (X3_empty_lookup_falls_back_to_utc no_credentials
                   (sample_world sample_clock (Some "")) (Some "Chicago") None None
                   _ _ sample_rows _ _ _ _)).
  - reflexivity.
  - vm_compute. reflexivity.
  - reflexivity.
  - right. reflexivity.
Defined.

(** X4.  The [timezone] field of a 200 response is never empty: it is the
    name the lookup gave, or [UTC]. *)
Theorem X4_timezone_field_is_never_empty g w city lat lon calls data name :
  get_weather g w city lat lon
  = (calls, Responded (mk_response 200 (WeatherBody data name))) ->
  name <> ""
  /\ exists c,
       In (TimezoneAt (snd c) (fst c)) calls
       /\ (name = "UTC" \/ timezone_at w (snd c) (fst c) = Ok (Some name)).
Proof.
  intros H.
  destruct (get_weather_cases g w city lat lon)
    as [(msg & _ & E) | [(c & e & _ & _ & E) | [(c & win & msg & _ & _ & _ & E)
       | (c & win & rows & _ & _ & _ & E)]]]; rewrite E in H; try discriminate H.
  destruct (timezone_at w (snd c) (fst c)) as [[[|x s]|]|e] eqn:Hat; [| | |discriminate H];
    injection H as <- _ <-; cbn [timezone_name].
  - split; [discriminate|]. exists c. split; [right; left; reflexivity | left; reflexivity].
  - split; [discriminate|]. exists c. split; [right; left; reflexivity | right; exact Hat].
  - split; [discriminate|]. exists c. split; [right; left; reflexivity | left; reflexivity].
Qed.

Lemma X4_timezone_field_is_never_empty_witness :
  exists calls,
    get_weather no_credentials (sample_world sample_clock (Some "America/Chicago"))
                (Some "Chicago") None None
    = (calls, Responded (mk_response 200
         (WeatherBody (map (localize_entry six_hours_west) sample_rows) "America/Chicago")))
    /\ "America/Chicago" <> ""
    /\ exists c,
         In (TimezoneAt (snd c) (fst c)) calls
         /\ ("America/Chicago" = "UTC"
             \/ timezone_at (sample_world sample_clock (Some "America/Chicago")) (snd c) (fst c)
                = Ok (Some "America/Chicago")).
Proof.
  eexists. split; [vm_compute; reflexivity|].
  eapply (X4_timezone_field_is_never_empty no_credentials
            (sample_world sample_clock (Some "America/Chicago")) (Some "Chicago") None None).
  vm_compute. reflexivity.
Defined.

(** X5.  A 400 answer is decided by the request alone: if one clock,
    provider and set of credentials lead to 400, every other does, with
    the same payload and without any outside call. *)
Theorem X5_bad_request_does_not_depend_on_the_world g w g' w' city lat lon calls r :
  get_weather g w city lat lon = (calls, Responded r) -> status r = 400 ->
  calls = [] /\ get_weather g' w' city lat lon = ([], Responded r).
Proof.
  intros H Hs.
  destruct (get_weather_cases g w city lat lon)
    as [(msg & Hin & E) | [(c & e & _ & _ & E) | [(c & win & msg & _ & _ & _ & E)
       | (c & win & rows & _ & _ & _ & E)]]]; rewrite E in H; try discriminate H.
  - injection H as <- <-. split; [reflexivity|]. apply get_weather_early_reply. exact Hin.
  - injection H as _ <-. discriminate Hs.
  - destruct (timezone_at w (snd c) (fst c)); [|discriminate H].
    injection H as _ <-. discriminate Hs.
Qed.

Lemma X5_bad_request_does_not_depend_on_the_world_witness :
  get_weather no_credentials (sample_world sample_clock None) None (Some "abc") (Some "10")
  = ([], Responded (mk_response 400 (ErrorBody "Invalid latitude or longitude")))
  /\ get_weather (mk_globals (Some "user") (Some "secret")) (sample_world last_day (Some "UTC"))
                 None (Some "abc") (Some "10")
     = ([], Responded (mk_response 400 (ErrorBody "Invalid latitude or longitude"))).
Proof.
  assert (H : get_weather no_credentials (sample_world sample_clock None)
                          None (Some "abc") (Some "10")
              = ([], Responded (mk_response 400 (ErrorBody "Invalid latitude or longitude"))))
    by (vm_compute; reflexivity).
  split; [exact H|].
  apply (X5_bad_request_does_not_depend_on_the_world _ _ _ _ _ _ _ _ _ H). reflexivity.
Defined.

(** X10.  A request that names a city, registered or not, is never turned
    away: whatever else it carries, the answer is 200 or, when the provider
    fails, 500. *)
Theorem X10_named_city_is_never_rejected g w city lat lon calls r :
  opt_truthy city = true ->
  get_weather g w city lat lon = (calls, Responded r) ->
  status r = 200 \/ status r = 500.
Proof.
  intros Hc H.
  destruct (get_weather_cases g w city lat lon)
    as [(msg & Hin & _) | [(c & e & _ & _ & E) | [(c & win & msg & _ & _ & _ & E)
       | (c & win & rows & _ & _ & _ & E)]]].
  - unfold resolve_input in Hin. rewrite Hc, resolve_city_eq in Hin. discriminate Hin.
  - rewrite E in H. discriminate H.
  - rewrite E in H. injection H as _ <-. right. reflexivity.
  - rewrite E in H. destruct (timezone_at w (snd c) (fst c)); [|discriminate H].
    injection H as _ <-. left. reflexivity.
Qed.

Lemma X10_named_city_is_never_rejected_witness :
  exists calls r,
    get_weather no_credentials (sample_world sample_clock None)
                (Some "Atlantis") (Some "abc") None = (calls, Responded r)
    /\ (status r = 200 \/ status r = 500).
Proof.
  eexists _, _. split.
  - vm_compute. reflexivity.
  - eapply (X10_named_city_is_never_rejected no_credentials (sample_world sample_clock None)
              (Some "Atlantis") (Some "abc") None).
    + reflexivity.
    + vm_compute. reflexivity.
Defined.

(** ** The other two routes *)

Lemma dict_get_key {V : Type} k (d : dict V) :
  (exists v, dict_get k d = Some v) <-> In k (dict_keys d).
Proof.
  induction d as [|[k' v'] d IH]; cbn [dict_get dict_keys map fst In].
  - split; [intros [v H]; discriminate H | contradiction].
  - destruct (String.eqb_spec k' k) as [E | E].
    + split; [intros _; left; exact E | intros _; eexists; reflexivity].
    + rewrite IH. unfold dict_keys. split; [intros H; right; exact H|].
      intros [H | H]; [contradiction | exact H].
Qed.

(** X6.  [GET /cities] answers 200 without calling anything and lists,
    without repetition, exactly the names the weather handler resolves to
    a coordinate of their own: a name is listed if and only if the registry
    holds it, and then [resolve_city] returns that stored coordinate, which
    lies within the latitude and longitude bounds. *)
Theorem X6_listed_cities_are_the_registered_ones name :
  exists names,
    get_cities = ([], Responded (mk_response 200 (CityNames names)))
    /\ NoDup names
    /\ (In name names <->
        exists c, dict_get name cities = Some c
                  /\ resolve_city (Some name) = Ok c /\ in_range c = true).
Proof.
  exists (dict_keys cities). split; [reflexivity|]. split.
  - cbn. repeat constructor; cbn; intuition discriminate.
  - rewrite <- dict_get_key. split.
    + intros [c Hc]. exists c. split; [exact Hc|]. split.
      * rewrite resolve_city_eq. cbn [cities_get]. rewrite Hc. reflexivity.
      * eapply registry_in_range. exact Hc.
    + intros (c & Hc & _). exists c. exact Hc.
Qed.

(** X7.  [GET /search] makes exactly one geocoder call, for [q] or for the
    empty string when [q] is missing, and nothing else.  It answers 200
    with the address and coordinates the geocoder gave, unchanged; 404
    when nothing was found; 503 when the geocoder timed out or was
    unavailable; and whenever it answers, the status is one of those three. *)
Theorem X7_search_city_outcomes w q :
  let query := match q with Some s => s | None => "" end in
  fst (search_city w q) = [Geocode query]
  /\ (forall loc, geocode w query = Ok (Some loc) ->
        snd (search_city w q)
        = Responded (mk_response 200
            (LocationBody (address loc) (latitude loc) (longitude loc))))
  /\ (geocode w query = Ok None ->
        snd (search_city w q) = Responded (mk_response 404 (ErrorBody "City not found")))
  /\ (geocode w query = Raise GeocoderTimedOut \/ geocode w query = Raise GeocoderUnavailable ->
        snd (search_city w q)
        = Responded (mk_response 503 (ErrorBody "Geocoding service unavailable")))
  /\ (forall r, snd (search_city w q) = Responded r ->
        status r = 200 \/ status r = 404 \/ status r = 503).
Proof.
  cbv zeta. unfold search_city.
  set (query := match q with Some s => s | None => "" end).
  split; [|split; [|split; [|split]]].
  - cbn [hbind perform]. destruct (geocode w query) as [[loc|]|e]; [reflexivity | reflexivity|].
    destruct e; reflexivity.
  - intros loc H. cbn [hbind perform]. rewrite H. reflexivity.
  - intros H. cbn [hbind perform]. rewrite H. reflexivity.
  - intros [H | H]; cbn [hbind perform]; rewrite H; reflexivity.
  - intros r. cbn [hbind perform].
    destruct (geocode w query) as [[loc|]|e].
    + cbn. intros H. injection H as <-. left. reflexivity.
    + cbn. intros H. injection H as <-. right. left. reflexivity.
    + destruct e; cbn; intros H; try discriminate H; injection H as <-; right; right; reflexivity.
Qed.

Lemma X7_search_city_outcomes_witness :
  fst (search_city (sample_world sample_clock None) None) = [Geocode ""]
  /\ snd (search_city (sample_world sample_clock None) None)
     = Responded (mk_response 404 (ErrorBody "City not found")).
Proof.
  destruct (X7_search_city_outcomes (sample_world sample_clock None) None) as (H1 & _ & H3 & _).
  split; [exact H1 | apply H3; reflexivity].
Defined.

(** ** The rows, once more *)

Lemma dict_keys_set {V : Type} k (v : V) d :
  dict_keys (dict_set k v d)
  = match dict_get k d with
    | Some _ => dict_keys d
    | None => (dict_keys d ++ [k])%list
    end.
Proof.
  induction d as [|[k' v'] d IH]; cbn [dict_set dict_get dict_keys map fst app].
  - reflexivity.
  - destruct (String.eqb_spec k' k) as [E | E]; cbn [dict_keys map fst].
    + reflexivity.
    + unfold dict_keys in IH. rewrite IH. destruct (dict_get k d); reflexivity.
Qed.

(** X8.  The loop keeps the fields of a row and their order: a row that
    had a [validdate] keeps exactly its keys, a row that had none gets the
    key [validdate] appended at the end; either way the row has the key
    afterwards. *)
Theorem X8_localize_entry_keeps_the_keys z entry :
  dict_keys (localize_entry z entry)
  = match dict_get "validdate" entry with
    | Some _ => dict_keys entry
    | None => (dict_keys entry ++ ["validdate"])%list
    end
  /\ In "validdate" (dict_keys (localize_entry z entry)).
Proof.
  split.
  - unfold localize_entry.
    destruct (dict_get "validdate" entry) as [v|] eqn:E; [destruct (truthy v)|];
      rewrite dict_keys_set, E; reflexivity.
  - apply dict_get_key. eexists. apply localize_entry_validdate.
Qed.

(** ** The window and the clock *)

Lemma naive_us_fields y m d h mi s us tz :
  naive_us (mk_datetime y m d h mi s us tz)
  = ymd2ord y m d * US_PER_DAY + ((h * 60 + mi) * 60 + s) * US_PER_SECOND + us.
Proof.
  unfold naive_us, toordinal. cbn [year month day hour minute second microsecond].
  unfold US_PER_DAY, US_PER_SECOND. lia.
Qed.

Lemma one_day_us : total_us (timedelta_new 1 0 0 0 0) = US_PER_DAY.
Proof. vm_compute. reflexivity. Qed.

(** The end of the window is the start moved by one day, in the same zone. *)
Lemma time_window_end now startdate enddate interval :
  time_window now = Ok (startdate, enddate, interval) ->
  startdate = mk_datetime (year now) (month now) (day now) (hour now) 0 0 0 timezone_utc
  /\ naive_us enddate = naive_us startdate + US_PER_DAY
  /\ tzinfo enddate = timezone_utc.
Proof.
  unfold time_window.
  set (start := replace_time (replace_tzinfo now timezone_utc) 0 0 0).
  destruct (datetime_add start (timedelta_new 1 0 0 0 0)) as [e|e] eqn:Hadd;
    [|discriminate].
  cbn [rbind]. intros H. injection H as <- <- _.
  destruct (datetime_add_spec _ _ _ Hadd) as (Hn & Htz & _).
  rewrite one_day_us in Hn.
  split; [reflexivity|]. split; [exact Hn | exact Htz].
Qed.

(** X9.  A window that is computed starts at or before the clock reading
    (taken as UTC) and less than one hour before it, and ends exactly
    86400 seconds after it starts: the present lies in its first hour. *)
Theorem X9_window_contains_the_present now startdate enddate interval :
  valid_datetime now = true ->
  time_window now = Ok (startdate, enddate, interval) ->
  instant startdate <= instant (replace_tzinfo now timezone_utc)
                     < instant startdate + 3600 * US_PER_SECOND
  /\ instant enddate = instant startdate + 86400 * US_PER_SECOND.
Proof.
  intros V Hw. destruct (time_window_end _ _ _ _ Hw) as (Hs & Hn & Htz).
  apply valid_datetime_spec in V. destruct V as (_ & Hh & Hmi & Hsec & Hus).
  unfold instant. rewrite Htz, Hn, Hs. cbn [replace_tzinfo tzinfo timezone_utc].
  rewrite !naive_us_fields, naive_us_replace_tzinfo, (naive_us_split now).
  unfold toordinal, time_of_day_us, US_PER_DAY, US_PER_SECOND. lia.
Qed.

Lemma X9_window_contains_the_present_witness :
  exists startdate enddate,
    time_window sample_clock = Ok (startdate, enddate, mk_timedelta 0 3600 0)
    /\ (instant startdate <= instant (replace_tzinfo sample_clock timezone_utc)
                           < instant startdate + 3600 * US_PER_SECOND
        /\ instant enddate = instant startdate + 86400 * US_PER_SECOND).
Proof.
  eexists _, _. split.
  - vm_compute. reflexivity.
  - apply (X9_window_contains_the_present sample_clock _ _ (mk_timedelta 0 3600 0)).
    + reflexivity.
    + vm_compute. reflexivity.
Defined.
